(** * weather_station.py: the Sense HAT weather station

    A shallow embedding of [src/weather_station.py] and the properties of
    its measurement pipeline: the temperature estimator ([get_temp],
    [get_smooth]), the minute-aligned scheduler and the upload path of
    [processing_loop], and the start-up checks of [main].

    Python floats are IEEE 754 binary64 values, modelled by Rocq's primitive
    floats; Python integers are unbounded, modelled by [Z].  Exceptions and
    the calls made on the outside world (logging, display, network) are
    threaded through a small writer/error monad [M].  What the outside
    world answers (the clock, the sensors, the network) is an input of each
    pass of the loop; the endless [while 1] is observed over the passes that
    a finite list of such inputs drives.  The blocks of [processing_loop]
    and [main] are named definitions here, each with the source lines it
    embeds. *)

From Stdlib Require Import ZArith Floats Lia.
From Stdlib Require Uint63.
From stdpp Require Import base list strings gmap pretty.

Set Warnings "-inexact-float".

(** ** Exceptions, results and the effect monad *)

(** The exceptions the program can meet.  [SystemExit] is what [sys.exit]
    raises; [OtherError] stands for any exception class not listed. *)
Inductive exn : Type :=
| IndexError
| ZeroDivisionError
| URLError (reason : string)
| HTTPError (code : Z)
| SocketTimeout
| UnicodeEncodeError
| KeyboardInterrupt
| SystemExit (code : Z)
| OtherError (name : string).

Inductive result (A : Type) : Type :=
| Ok (a : A)
| Raise (x : exn).
Arguments Ok {A} a.
Arguments Raise {A} x.

(** The 8x8 LED matrix images, as lists of [R, G, B] lists. *)
Definition pixel : Type := list Z.
Definition image : Type := list pixel.

Inductive level : Type := DEBUG | INFO | ERROR.

(** The log lines of the program, with the values they format. *)
Inductive logmsg : Type :=
| MsgInitialTemp (last_temp : float)
| MsgLastMinute (last_minute : Z)
| MsgReading (temp_f temp_c pressure humidity : float)
| MsgMinuteMark (interval current_minute : Z)
| MsgField (name value : string)
| MsgUploading
| MsgServerResponse (html : string)
| MsgExceptionType (type_name : string)
| MsgError (x : exn)
| MsgSkipping
| MsgBadInterval
| MsgInitConfig
| MsgMissingConfig
| MsgConfigOk
| MsgStationId (id : string)
| MsgStationKey (key : string)
| MsgInitSense
| MsgSenseFailed
| MsgInitComplete.

(** What the program does to the outside world, in order. *)
Inductive event : Type :=
| EvLog (lvl : level) (msg : logmsg)
| EvPrint (text : string)
| EvSetPixels (img : image)
| EvShowMessage (text : string)
| EvClear
| EvUrlOpen (url : string)
| EvClose
| EvPrintExc (x : exn)
| EvSleep (seconds : Z).

(** A computation emits events and then returns a value or raises. *)
Definition M (A : Type) : Type := list event * result A.

Definition ret {A : Type} (a : A) : M A := ([], Ok a).

Definition raise {A : Type} (x : exn) : M A := ([], Raise x).

Definition emit (ev : event) : M unit := ([ev], Ok tt).

Definition bind {A B : Type} (m : M A) (k : A -> M B) : M B :=
  match m with
  | (l, Ok a) => let '(l', r) := k a in (l ++ l', r)
  | (l, Raise x) => (l, Raise x)
  end.

(** [try: m except: h] with a bare [except:], which catches everything. *)
Definition try_except {A : Type} (m : M A) (h : exn -> M A) : M A :=
  match m with
  | (l, Ok a) => (l, Ok a)
  | (l, Raise x) => let '(l', r) := h x in (l ++ l', r)
  end.

(** A call whose outcome the environment decides. *)
Definition call {A : Type} (r : result A) : M A := ([], r).

Notation "'let!' p ':=' m 'in' k" := (bind m (fun p => k))
  (at level 10, p pattern, m at level 200, k at level 200).
Notation "m ;;; k" := (bind m (fun _ => k))
  (at level 100, right associativity).

Definition logging_info (msg : logmsg) : M unit := emit (EvLog INFO msg).
Definition logging_debug (msg : logmsg) : M unit := emit (EvLog DEBUG msg).
Definition logging_error (msg : logmsg) : M unit := emit (EvLog ERROR msg).

(** ** Constants (lines 26-80)

    The functions below take the interval and the upload flag as
    arguments, so that properties can speak of other settings than the
    two the file ships with. *)

Definition MEASUREMENT_INTERVAL : option Z := Some 10%Z.
Definition WEATHER_UPLOAD : bool := true.
Definition WU_URL : string :=
  "https://weatherstation.wunderground.com/weatherstation/updateweatherstation.php".

Module Display.
Definition b : pixel := [0; 0; 255]%Z.
Definition r : pixel := [255; 0; 0]%Z.
Definition e : pixel := [0; 0; 0]%Z.
End Display.

Definition arrow_up : image :=
  let e := Display.e in let r := Display.r in
  [ e; e; e; r; r; e; e; e;
    e; e; r; r; r; r; e; e;
    e; r; e; r; r; e; r; e;
    r; e; e; r; r; e; e; r;
    e; e; e; r; r; e; e; e;
    e; e; e; r; r; e; e; e;
    e; e; e; r; r; e; e; e;
    e; e; e; r; r; e; e; e ].

Definition arrow_down : image :=
  let e := Display.e in let b := Display.b in
  [ e; e; e; b; b; e; e; e;
    e; e; e; b; b; e; e; e;
    e; e; e; b; b; e; e; e;
    e; e; e; b; b; e; e; e;
    b; e; e; b; b; e; e; b;
    e; b; e; b; b; e; b; e;
    e; e; b; b; b; b; e; e;
    e; e; e; b; b; e; e; e ].

Definition bars : image :=
  let e := Display.e in let r := Display.r in let b := Display.b in
  [ e; e; e; e; e; e; e; e;
    e; e; e; e; e; e; e; e;
    r; r; r; r; r; r; r; r;
    r; r; r; r; r; r; r; r;
    b; b; b; b; b; b; b; b;
    b; b; b; b; b; b; b; b;
    e; e; e; e; e; e; e; e;
    e; e; e; e; e; e; e; e ].

(** ** The temperature estimator (lines 83-133) *)

Definition c_to_f (input_temp : float) : float :=
  ((input_temp * 1.8) + 32)%float.

(** [l[i]] and [l[i] = v] on a Python list, for the constant indices the
    program uses: out of range raises [IndexError]. *)
Definition list_get (l : list float) (i : nat) : M float :=
  match l !! i with
  | Some v => ret v
  | None => raise IndexError
  end.

Definition list_set (l : list float) (i : nat) (v : float) : M (list float) :=
  if decide (i < length l)%nat then ret (<[i:=v]> l) else raise IndexError.

(** The function attribute [get_smooth.t]: absent until the first call. *)
Definition smooth_store : Type := option (list float).

Definition get_smooth (t : smooth_store) (x : float)
  : M (smooth_store * float) :=
  let t := match t with
           | None => [x; x; x]
           | Some l => l
           end in
  let! t_1 := list_get t 1 in
  let! t := list_set t 2 t_1 in
  let! t_0 := list_get t 0 in
  let! t := list_set t 1 t_0 in
  let! t := list_set t 0 x in
  let! a0 := list_get t 0 in
  let! a1 := list_get t 1 in
  let! a2 := list_get t 2 in
  let xs := ((a0 + a1 + a2) / 3)%float in
  ret (Some t, xs).

(** One round of sensor answers: the two Sense HAT temperatures and the
    CPU temperature parsed from [vcgencmd measure_temp].  [get_temp] takes
    the three values once they are read; [get_temp_reads], further down,
    spells out the reads themselves, which can raise. *)
Record reading : Type := {
  temperature_from_humidity : float;
  temperature_from_pressure : float;
  cpu_temp : float
}.

Definition get_temp (store : smooth_store) (sense : reading)
  : M (smooth_store * float) :=
  let t1 := temperature_from_humidity sense in
  let t2 := temperature_from_pressure sense in
  let t := ((t1 + t2) / 2)%float in
  let t_cpu := cpu_temp sense in
  let t_corr := (t - ((t_cpu - t) / 1.5))%float in
  get_smooth store t_corr.

(** ** The processing loop (lines 136-251) *)

(** [a % b] on Python integers: the sign follows the divisor, and a zero
    divisor raises. *)
Definition py_mod (a b : Z) : M Z :=
  if (b =? 0)%Z then raise ZeroDivisionError else ret (a mod b)%Z.

(** What [urllib2.urlopen] hands back: reading and closing can each fail. *)
Record response : Type := {
  read : result string;
  close : result unit
}.

(** Everything one pass of the [while] loop asks of the outside world: the
    two clock reads, the sensor answers and the network. *)
Record tick_env : Type := {
  now_second : Z;
  sensors : reading;
  get_humidity : float;
  get_pressure : float;
  now_minute : Z;
  urlopen : string -> result response
}.

(** The variables that live across passes: the [get_smooth.t] attribute and
    the locals [last_temp] and [last_minute]. *)
Record loop_state : Type := {
  smooth_t : smooth_store;
  last_temp : float;
  last_minute : Z
}.

Section Program.

(** The builtins [round] and [str] and [urllib.urlencode] belong to the
    interpreter and its library, not to this repository: they are
    parameters. *)
Variable round : float -> Z -> float.
Variable str : float -> string.
Variable urlencode : gmap string string -> result string.

(** The two module constants, and the module globals set by [main]. *)
Variable measurement_interval : Z.
Variable weather_upload : bool.
Variables wu_station_id wu_station_key : string.

(** The dictionary [weather_data] (lines 226-234). *)
Definition build_weather_data (temp_f humidity pressure : float)
  : gmap string string :=
  <["action" := "updateraw"]>
  (<["ID" := wu_station_id]>
  (<["PASSWORD" := wu_station_key]>
  (<["dateutc" := "now"]>
  (<["tempf" := str temp_f]>
  (<["humidity" := str humidity]>
  (<["baromin" := str pressure]> ∅)))))).

(** The body of the [try] (lines 236-241), without its handler. *)
Definition send (weather_data : gmap string string)
    (urlopen : string -> result response) : M unit :=
  let! query := call (urlencode weather_data) in
  let upload_url := WU_URL +:+ "?" +:+ query in
  emit (EvUrlOpen upload_url) ;;;
  let! response := call (urlopen upload_url) in
  let! html := call (read response) in
  logging_info (MsgServerResponse html) ;;;
  emit EvClose ;;;
  call (close response).

(** The [try ... except:] around the request (lines 235-245).  In the
    handler [type(e)] reads the module global [e], the empty pixel colour,
    so the first line logs the type of a list. *)
Definition upload (weather_data : gmap string string)
    (urlopen : string -> result response) : M unit :=
  try_except (send weather_data urlopen)
    (fun x =>
       logging_error (MsgExceptionType "list") ;;;
       logging_error (MsgError x) ;;;
       emit (EvPrintExc x)).

(** The arrow or bars shown for a new temperature (lines 198-208). *)
Definition show_direction (last_temp temp_f : float) : M unit :=
  if negb (last_temp =? temp_f)%float then
    if (temp_f <? last_temp)%float then
      emit (EvSetPixels arrow_down)
    else
      emit (EvSetPixels arrow_up)
  else
    emit (EvSetPixels bars).

(** What happens at a minute mark (lines 194-247); returns the new
    [last_temp]. *)
Definition minute_mark (last_temp temp_f humidity pressure : float)
    (current_minute : Z) (urlopen : string -> result response) : M float :=
  logging_info (MsgMinuteMark measurement_interval current_minute) ;;;
  show_direction last_temp temp_f ;;;
  let last_temp := temp_f in
  logging_debug (MsgField "ID" wu_station_id) ;;;
  logging_debug (MsgField "PASSWORD" wu_station_key) ;;;
  logging_debug (MsgField "tempf" (str temp_f)) ;;;
  logging_debug (MsgField "humidity" (str humidity)) ;;;
  logging_debug (MsgField "baromin" (str pressure)) ;;;
  (if weather_upload then
     logging_info MsgUploading ;;;
     let weather_data := build_weather_data temp_f humidity pressure in
     upload weather_data urlopen
   else
     logging_info MsgSkipping) ;;;
  ret last_temp.

(** A pass on a 5-second mark (lines 168-247). *)
Definition sample (st : loop_state) (env : tick_env) : M loop_state :=
  let! (t, calc_temp) := get_temp (smooth_t st) (sensors env) in
  let temp_c := round calc_temp 1 in
  let temp_f := round (c_to_f calc_temp) 1 in
  let humidity := round (get_humidity env) 0 in
  let pressure := round (get_pressure env * 0.0295300)%float 1 in
  logging_info (MsgReading temp_f temp_c pressure humidity) ;;;
  let current_minute := now_minute env in
  if negb (current_minute =? last_minute st)%Z then
    let last_minute := current_minute in
    let! due :=
      (if (current_minute =? 0)%Z then ret true
       else
         let! m := py_mod current_minute measurement_interval in
         ret (m =? 0)%Z) in
    if due : bool then
      let! last_temp :=
        minute_mark (last_temp st) temp_f humidity pressure current_minute
          (urlopen env) in
      ret {| smooth_t := t; last_temp := last_temp;
             last_minute := last_minute |}
    else
      ret {| smooth_t := t; last_temp := last_temp st;
             last_minute := last_minute |}
  else
    ret {| smooth_t := t; last_temp := last_temp st;
           last_minute := last_minute st |}.

(** One pass of [while 1] (lines 156-251). *)
Definition loop_body (st : loop_state) (env : tick_env) : M loop_state :=
  let current_second := now_second env in
  let! st :=
    (if (current_second =? 0)%Z || (current_second mod 5 =? 0)%Z
     then sample st env else ret st) in
  emit (EvSleep 1) ;;;
  ret st.

(** The loop never ends by itself; a run is observed over the passes
    that a list of environments drives. *)
Fixpoint loop (st : loop_state) (envs : list tick_env) : M loop_state :=
  match envs with
  | [] => ret st
  | env :: envs => let! st := loop_body st env in loop st envs
  end.

(** The cursor set before the loop starts (lines 144-148). *)
Definition init_last_minute (minute : Z) : Z :=
  let last_minute := minute in
  let last_minute := (last_minute - 1)%Z in
  if (last_minute =? 0)%Z then 59%Z else last_minute.

(** The lines of [processing_loop] before the loop (lines 140-149). *)
Definition loop_init (store : smooth_store) (first : reading) (minute : Z)
  : M loop_state :=
  let! (t, calc_temp) := get_temp store first in
  let last_temp := round (c_to_f calc_temp) 1 in
  logging_info (MsgInitialTemp last_temp) ;;;
  let last_minute := init_last_minute minute in
  logging_debug (MsgLastMinute last_minute) ;;;
  ret {| smooth_t := t; last_temp := last_temp;
         last_minute := last_minute |}.

Definition processing_loop (store : smooth_store) (first : reading)
    (minute : Z) (envs : list tick_env) : M loop_state :=
  let! st := loop_init store first minute in
  loop st envs.

End Program.

(** ** Start-up (lines 254-318) *)

Definition SINGLE_HASH : string := "#".
Definition HASHES : string := "############################################".

(** The two credentials of [config.Config]; [None] is Python's [None]. *)
Record config : Type := {
  STATION_ID : option string;
  STATION_KEY : option string
}.

(** How the three Sense HAT calls of [main] turn out. *)
Record hardware : Type := {
  SenseHat : result unit;
  show_message : result unit;
  clear : result unit
}.

Definition sys_exit {A : Type} (code : Z) : M A := raise (SystemExit code).

Section Main.

Variable round : float -> Z -> float.
Variable str : float -> string.
Variable urlencode : gmap string string -> result string.

(** The module constants as [main] sees them; the interval may be [None]. *)
Variable measurement_interval : option Z.
Variable weather_upload : bool.
Variable Config : config.

Definition banner : M unit :=
  emit (EvPrint (String (Ascii.ascii_of_nat 10) HASHES)) ;;;
  emit (EvPrint (SINGLE_HASH +:+ " Pi Weather Station (Sense HAT)           "
                 +:+ SINGLE_HASH)) ;;;
  emit (EvPrint (SINGLE_HASH +:+ "  " +:+ SINGLE_HASH)) ;;;
  emit (EvPrint HASHES).

(** [if (MEASUREMENT_INTERVAL is None) or (MEASUREMENT_INTERVAL > 60)]. *)
Definition check_interval : M Z :=
  match measurement_interval with
  | None => logging_info MsgBadInterval ;;; sys_exit 1
  | Some interval =>
      if (interval >? 60)%Z then logging_info MsgBadInterval ;;; sys_exit 1
      else ret interval
  end.

Definition read_config : M (string * string) :=
  logging_info MsgInitConfig ;;;
  match STATION_ID Config, STATION_KEY Config with
  | Some wu_station_id, Some wu_station_key =>
      logging_info MsgConfigOk ;;;
      logging_info (MsgStationId wu_station_id) ;;;
      logging_debug (MsgStationKey wu_station_key) ;;;
      ret (wu_station_id, wu_station_key)
  | _, _ =>
      logging_info MsgMissingConfig ;;; sys_exit 1
  end.

Definition init_sense_hat (hw : hardware) : M unit :=
  try_except
    (logging_info MsgInitSense ;;;
     call (SenseHat hw) ;;;
     emit (EvShowMessage "Init") ;;;
     call (show_message hw) ;;;
     emit EvClear ;;;
     call (clear hw))
    (fun x =>
       logging_info MsgSenseFailed ;;;
       logging_error (MsgExceptionType "list") ;;;
       logging_error (MsgError x) ;;;
       emit (EvPrintExc x) ;;;
       sys_exit 1).

(** [main], then the loop for as many passes as [envs] drives.  The
    smoothing attribute does not exist yet when the process starts. *)
Definition main (hw : hardware) (first : reading) (minute : Z)
    (envs : list tick_env) : M loop_state :=
  banner ;;;
  let! interval := check_interval in
  let! (wu_station_id, wu_station_key) := read_config in
  init_sense_hat hw ;;;
  logging_info MsgInitComplete ;;;
  processing_loop round str urlencode interval weather_upload
    wu_station_id wu_station_key None first minute envs.

(** The [if __name__ == "__main__"] block.  The exceptions [main] meets
    here come from the calls it makes; an interrupt that arrives between
    two calls is not among them. *)
Definition script (hw : hardware) (first : reading) (minute : Z)
    (envs : list tick_env) : M loop_state :=
  try_except (main hw first minute envs)
    (fun x =>
       match x with
       | KeyboardInterrupt =>
           emit (EvPrint (String (Ascii.ascii_of_nat 10)
                            ("Exiting application"
                               +:+ String (Ascii.ascii_of_nat 10) ""))) ;;;
           sys_exit 0
       | _ => raise x
       end).

End Main.

(** The status the process ends with: [None] while the loop is still
    running; an exception nobody catches ends it with status 1. *)
Definition exit_code {A : Type} (r : result A) : option Z :=
  match r with
  | Ok _ => None
  | Raise (SystemExit code) => Some code
  | Raise _ => Some 1%Z
  end.

(** ** Observations on traces *)

(** An upload event is a pass that reaches the minute mark. *)
Definition is_minute_mark (ev : event) : bool :=
  match ev with
  | EvLog INFO (MsgMinuteMark _ _) => true
  | _ => false
  end.

Fixpoint upload_events (l : list event) : nat :=
  match l with
  | [] => 0
  | ev :: l => (if is_minute_mark ev then 1 else 0) + upload_events l
  end.

(** The images sent to the LED matrix, in order. *)
Fixpoint renders (l : list event) : list image :=
  match l with
  | [] => []
  | EvSetPixels img :: l => img :: renders l
  | _ :: l => renders l
  end.

(** The URLs requested, in order. *)
Fixpoint requests (l : list event) : list string :=
  match l with
  | [] => []
  | EvUrlOpen url :: l => url :: requests l
  | _ :: l => requests l
  end.

(** The passes completed: each one ends in [time.sleep(1)]. *)
Fixpoint passes (l : list event) : nat :=
  match l with
  | [] => 0
  | EvSleep _ :: l => S (passes l)
  | _ :: l => passes l
  end.

(** The handler of [upload], as a list of events. *)
Definition handler_trace (x : exn) : list event :=
  [EvLog ERROR (MsgExceptionType "list"); EvLog ERROR (MsgError x);
   EvPrintExc x].

(** The five debug lines of a minute mark. *)
Definition debug_fields (str : float -> string)
    (wu_station_id wu_station_key : string)
    (temp_f humidity pressure : float) : list event :=
  [EvLog DEBUG (MsgField "ID" wu_station_id);
   EvLog DEBUG (MsgField "PASSWORD" wu_station_key);
   EvLog DEBUG (MsgField "tempf" (str temp_f));
   EvLog DEBUG (MsgField "humidity" (str humidity));
   EvLog DEBUG (MsgField "baromin" (str pressure))].

(** A pass that samples the sensors. *)
Definition sampling_tick (env : tick_env) : bool :=
  (now_second env =? 0)%Z || (now_second env mod 5 =? 0)%Z.

(** The minute test of the scheduler, and whether a sampling pass in state
    [st] is an upload event. *)
Definition due (interval minute : Z) : bool :=
  (minute =? 0)%Z || (minute mod interval =? 0)%Z.

Definition fires (interval : Z) (st : loop_state) (env : tick_env) : bool :=
  negb (now_minute env =? last_minute st)%Z && due interval (now_minute env).

(** The smoothing attribute is absent or holds exactly three values. *)
Definition store_ok (t : smooth_store) : Prop :=
  match t with
  | None => True
  | Some l => length l = 3%nat
  end.

(** The same pass with another network behind it. *)
Definition with_urlopen (env : tick_env) (net : string -> result response)
  : tick_env :=
  {| now_second := now_second env;
     sensors := sensors env;
     get_humidity := get_humidity env;
     get_pressure := get_pressure env;
     now_minute := now_minute env;
     urlopen := net |}.

(** Two passes that differ at most in how the network answers. *)
Definition same_but_net (env env' : tick_env) : Prop :=
  env' = with_urlopen env (urlopen env').

(** ** The estimator as the specification words it *)

Definition compensated (s : reading) : float :=
  let h := temperature_from_humidity s in
  let p := temperature_from_pressure s in
  let r := cpu_temp s in
  let avg := ((h + p) / 2)%float in
  (avg - ((r - avg) / 1.5))%float.

Definition mean3 (a b c : float) : float := ((a + b + c) / 3)%float.

(** The mean of the values at [n], [n-1] and [n-2]; [n - k] on [nat] stops
    at 0, which clamps the window to the history there is. *)
Definition window_mean (cs : list float) (n : nat) : option float :=
  match cs !! n, cs !! (n - 1)%nat, cs !! (n - 2)%nat with
  | Some c0, Some c1, Some c2 => Some (mean3 c0 c1 c2)
  | _, _, _ => None
  end.

(** The outputs of the filter fed [xs] when its two newest slots hold
    [p1] (newest) and [p2]. *)
Fixpoint smooth_from (p1 p2 : float) (xs : list float) : list float :=
  match xs with
  | [] => []
  | x :: xs => mean3 x p1 p2 :: smooth_from x p1 xs
  end.

(** [get_temp] called once per element of [inputs], in order. *)
Fixpoint get_temp_calls (store : smooth_store) (inputs : list reading)
  : M (smooth_store * list float) :=
  match inputs with
  | [] => ret (store, [])
  | s :: inputs =>
      let! (store, v) := get_temp store s in
      let! (store, vs) := get_temp_calls store inputs in
      ret (store, v :: vs)
  end.

(** ** A concrete interpreter, for closed examples

    [round] rounds the exact value of a finite float to [ndigits] decimals,
    a half away from zero, as Python 2.7 does; [str] prints a value that
    has one decimal; [urlencode] joins [key=value] pairs with [&]. *)
Module Py.

Definition float_of_Z (k : Z) : float := PrimFloat.of_uint63 (Uint63.of_Z k).

(** The sign of [x] and the integer nearest to [|x| * 10 ^ ndigits]. *)
Definition nearest_scaled (x : float) (ndigits : Z) : option (bool * Z) :=
  match Prim2SF x with
  | S754_zero s => Some (s, 0%Z)
  | S754_finite s m e =>
      let num := (Z.pos m * 10 ^ ndigits)%Z in
      Some (s, if (0 <=? e)%Z then (num * 2 ^ e)%Z
               else ((2 * num + 2 ^ (- e)) / (2 * 2 ^ (- e)))%Z)
  | _ => None
  end.

Definition round (x : float) (ndigits : Z) : float :=
  match nearest_scaled x ndigits with
  | Some (s, k) =>
      let v := (float_of_Z k / float_of_Z (10 ^ ndigits))%float in
      if s then (- v)%float else v
  | None => x
  end.

Definition str (x : float) : string :=
  match nearest_scaled x 1 with
  | Some (s, k) =>
      (if s then "-" else "") +:+ pretty (k / 10)%Z +:+ "."
        +:+ pretty (k mod 10)%Z
  | None => "nan"
  end.

Definition urlencode (query : gmap string string) : result string :=
  Ok (foldr (fun kv acc =>
               kv.1 +:+ "=" +:+ kv.2
                 +:+ (if decide (acc = "") then "" else "&" +:+ acc))
        "" (map_to_list query)).

End Py.

(** ** Concrete sensor answers, networks and passes, for closed examples *)
Module Scenario.

(** All three temperatures equal: the compensated value is that value. *)
Definition steady (c : float) : reading :=
  {| temperature_from_humidity := c;
     temperature_from_pressure := c;
     cpu_temp := c |}.

Definition offline : string -> result response :=
  fun _ => Raise (URLError "Network is unreachable").

Definition online : string -> result response :=
  fun _ => Ok {| read := Ok "success"; close := Ok tt |}.

Definition pass (minute second : Z) (c : float)
    (net : string -> result response) : tick_env :=
  {| now_second := second;
     sensors := steady c;
     get_humidity := 45.2%float;
     get_pressure := 1013.25%float;
     now_minute := minute;
     urlopen := net |}.

(** The loop after a start at 20 degrees Celsius in minute 10:09. *)
Definition started : loop_state :=
  {| smooth_t := Some [20; 20; 20]%float;
     last_temp := 68%float;
     last_minute := 9 |}.

(** Four passes inside minute 10, two of them on a 5-second mark. *)
Definition minute_ten (net : string -> result response) : list tick_env :=
  [pass 10 0 25 net; pass 10 1 25 net; pass 10 5 25 net; pass 10 6 25 net].

(** The loop after the upload event of minute 10 at 71.0 degrees
    Fahrenheit. *)
Definition uploaded : loop_state :=
  {| smooth_t := Some [25; 20; 20]%float;
     last_temp := 71%float;
     last_minute := 10 |}.

Definition station : config :=
  {| STATION_ID := Some "KXX0000"; STATION_KEY := Some "secret" |}.

Definition working : hardware :=
  {| SenseHat := Ok tt; show_message := Ok tt; clear := Ok tt |}.

End Scenario.

(** ** The CPU temperature (lines 88-92) *)

Import Stdlib.Strings.Ascii.

(** [s.startswith(old)]. *)
Fixpoint startswith (old s : string) : bool :=
  match old, s with
  | EmptyString, _ => true
  | String a old, String c s =>
      if decide (a = c) then startswith old s else false
  | String _ _, EmptyString => false
  end.

(** [s.replace(old, new)]: every occurrence of [old], found from left to
    right without overlap, becomes [new].  [skip] counts the characters
    of a match still to pass over. *)
Fixpoint replace_from (skip : nat) (old new s : string) : string :=
  match s with
  | EmptyString =>
      match old with
      | EmptyString => new
      | String _ _ => EmptyString
      end
  | String c s' =>
      match skip with
      | S skip => replace_from skip old new s'
      | O =>
          if startswith old s then
            new +:+ replace_from (String.length old - 1) old new s'
          else String c (replace_from 0 old new s')
      end
  end.

Definition py_replace (s old new : string) : string :=
  replace_from 0 old new s.

(** The text ['C] followed by a newline. *)
Definition degrees_suffix : string :=
  String "'" (String "C" (String (ascii_of_nat 10) EmptyString)).

(** [get_cpu_temp]: [res] is the line [vcgencmd measure_temp] printed and
    [float] stands for the builtin, which raises on a string that is no
    number. *)
Definition get_cpu_temp (float : string -> result PrimFloat.float)
    (res : string) : M PrimFloat.float :=
  call (float (py_replace (py_replace res "temp=" "") degrees_suffix "")).

(** ** Observations on the start-up and on images *)

(** The first exception of the three Sense HAT calls of [main], if any. *)
Definition init_failure (hw : hardware) : option exn :=
  match SenseHat hw, show_message hw, clear hw with
  | Raise x, _, _ => Some x
  | Ok _, Raise x, _ => Some x
  | Ok _, Ok _, Raise x => Some x
  | Ok _, Ok _, Ok _ => None
  end.

(** What [main] prints and logs before [processing_loop] when every check
    passes. *)
Definition startup_trace (wu_station_id wu_station_key : string)
  : list event :=
  banner.1
  ++ [EvLog INFO MsgInitConfig;
      EvLog INFO MsgConfigOk;
      EvLog INFO (MsgStationId wu_station_id);
      EvLog DEBUG (MsgStationKey wu_station_key);
      EvLog INFO MsgInitSense;
      EvShowMessage "Init";
      EvClear;
      EvLog INFO MsgInitComplete].

(** What [set_pixels] accepts: 64 pixels of three channels in 0..255. *)
Definition pixel_ok (px : pixel) : Prop :=
  length px = 3%nat /\ Forall (fun c => (0 <= c <= 255)%Z) px.

Definition image_ok (img : image) : Prop :=
  length img = 64%nat /\ Forall pixel_ok img.

(** A string without the character [a]. *)
Fixpoint lacks (a : ascii) (s : string) : Prop :=
  match s with
  | EmptyString => True
  | String c s => c <> a /\ lacks a s
  end.

(** [old] occurs nowhere in [s]: no suffix of [s] starts with it. *)
Fixpoint absent (old s : string) : Prop :=
  startswith old s = false /\
  match s with
  | EmptyString => True
  | String _ s => absent old s
  end.

(** A string that contains neither marker [get_cpu_temp] removes. *)
Definition marker_free (s : string) : Prop :=
  absent "temp=" s /\ absent degrees_suffix s.


(** What every trace of the loop keeps true of the display and of the
    network: one image per upload event, each one of the three
    indicators; at most one request per upload event, each for [WU_URL]
    with a query; no request at all when uploads are disabled. *)
Definition orderly (weather_upload : bool) (l : list event) : Prop :=
  length (renders l) = upload_events l /\
  Forall (fun img => img = arrow_up \/ img = arrow_down \/ img = bars)
    (renders l) /\
  (length (requests l) <= upload_events l)%nat /\
  Forall (fun url => exists query, url = WU_URL +:+ "?" +:+ query)
    (requests l) /\
  (weather_upload = false -> requests l = []).

(** ** More concrete inputs, for closed examples *)
Module Cases.

Definition no_key : config :=
  {| STATION_ID := Some "KXX0000"; STATION_KEY := None |}.

(** The display call is interrupted from the keyboard. *)
Definition interrupted : hardware :=
  {| SenseHat := Ok tt;
     show_message := Raise KeyboardInterrupt;
     clear := Ok tt |}.

(** The loop at the end of the four passes of minute 10. *)
Definition after_minute_ten : loop_state :=
  {| smooth_t := Some [25; 25; 20]%float;
     last_temp := 71%float;
     last_minute := 10 |}.

End Cases.

(** ** The monad *)

Lemma bind_ok {A B : Type} (a : A) (k : A -> M B) :
  bind ([], Ok a) k = k a.
Proof. unfold bind. by destruct (k a). Qed.

Lemma bind_emitted {A B : Type} (l : list event) (a : A) (k : A -> M B) :
  bind (l, Ok a) k = (l ++ (k a).1, (k a).2).
Proof. unfold bind. by destruct (k a). Qed.

Lemma bind_raise {A B : Type} (l : list event) (x : exn) (k : A -> M B) :
  bind (l, Raise x) k = (l, Raise x).
Proof. reflexivity. Qed.

(** ** The estimator *)

Lemma get_smooth_first (x : float) :
  get_smooth None x = ([], Ok (Some [x; x; x], mean3 x x x)).
Proof. reflexivity. Qed.

Lemma get_smooth_next (a b c x : float) :
  get_smooth (Some [a; b; c]) x = ([], Ok (Some [x; a; b], mean3 x a b)).
Proof. reflexivity. Qed.

Lemma store_ok_inv (t : smooth_store) :
  store_ok t ->
  t = None \/ exists a b c, t = Some [a; b; c].
Proof.
  destruct t as [l|]; [|by left].
  intros Hlen; right.
  destruct l as [|a [|b [|c [|d l]]]]; simpl in Hlen; try discriminate.
  by exists a, b, c.
Qed.

Lemma get_smooth_ok (t : smooth_store) (x : float) :
  store_ok t ->
  exists t' v, get_smooth t x = ([], Ok (t', v)) /\ store_ok t'.
Proof.
  intros [-> | (a & b & c & ->)]%store_ok_inv.
  - eexists _, _; split; [apply get_smooth_first | done].
  - eexists _, _; split; [apply get_smooth_next | done].
Qed.

Lemma get_smooth_silent (t : smooth_store) (x : float) :
  (get_smooth t x).1 = [].
Proof.
  destruct t as [l|]; [|done].
  unfold get_smooth, list_get, list_set, bind, ret, raise.
  destruct l as [|a [|b [|c l]]]; reflexivity.
Qed.

Lemma get_temp_smooths (t : smooth_store) (s : reading) :
  get_temp t s = get_smooth t (compensated s).
Proof. reflexivity. Qed.

Lemma get_temp_silent (t : smooth_store) (s : reading) :
  (get_temp t s).1 = [].
Proof. rewrite get_temp_smooths. apply get_smooth_silent. Qed.

Lemma get_temp_ok (t : smooth_store) (s : reading) :
  store_ok t ->
  exists t' v, get_temp t s = ([], Ok (t', v)) /\ store_ok t'.
Proof. rewrite get_temp_smooths. apply get_smooth_ok. Qed.

Lemma get_temp_calls_cons (t : smooth_store) (s : reading)
    (inputs : list reading) :
  get_temp_calls t (s :: inputs)
  = (let! (t, v) := get_smooth t (compensated s) in
     let! (t, vs) := get_temp_calls t inputs in
     ret (t, v :: vs)).
Proof. reflexivity. Qed.

Lemma get_temp_calls_from (inputs : list reading) (a b c : float) :
  exists t,
    get_temp_calls (Some [a; b; c]) inputs
    = ([], Ok (t, smooth_from a b (compensated <$> inputs))).
Proof.
  revert a b c. induction inputs as [|s inputs IH]; intros a b c.
  - by eexists.
  - destruct (IH (compensated s) a b) as [t Ht].
    exists t. rewrite get_temp_calls_cons, get_smooth_next, bind_ok, Ht.
    reflexivity.
Qed.

Lemma smooth_from_lookup (xs : list float) (p1 p2 : float) (n : nat) :
  smooth_from p1 p2 xs !! n
  = match (p2 :: p1 :: xs) !! (n + 2)%nat, (p2 :: p1 :: xs) !! (n + 1)%nat,
          (p2 :: p1 :: xs) !! n with
    | Some c0, Some c1, Some c2 => Some (mean3 c0 c1 c2)
    | _, _, _ => None
    end.
Proof.
  revert p1 p2 n. induction xs as [|x xs IH]; intros p1 p2 n.
  - destruct n as [|[|n]]; reflexivity.
  - destruct n as [|n]; [reflexivity|].
    simpl. rewrite IH. reflexivity.
Qed.

(** ** Traces *)

Lemma upload_events_app (l1 l2 : list event) :
  upload_events (l1 ++ l2) = (upload_events l1 + upload_events l2)%nat.
Proof. induction l1 as [|ev l1 IH]; simpl; [done | rewrite IH; lia]. Qed.

Lemma renders_app (l1 l2 : list event) :
  renders (l1 ++ l2) = renders l1 ++ renders l2.
Proof.
  induction l1 as [|ev l1 IH]; [done|].
  destruct ev; simpl; by rewrite IH.
Qed.

Lemma requests_app (l1 l2 : list event) :
  requests (l1 ++ l2) = requests l1 ++ requests l2.
Proof.
  induction l1 as [|ev l1 IH]; [done|].
  destruct ev; simpl; by rewrite IH.
Qed.

Lemma passes_app (l1 l2 : list event) :
  passes (l1 ++ l2) = (passes l1 + passes l2)%nat.
Proof.
  induction l1 as [|ev l1 IH]; [done|].
  destruct ev; simpl; by rewrite IH.
Qed.


(** ** Comparisons of floats *)

Lemma SFcompare_antisym (x y : spec_float) :
  SFcompare y x = option_map CompOpp (SFcompare x y).
Proof.
  destruct x as [[]| [] | |[] mx ex], y as [[]| [] | |[] my ey]; simpl;
    try reflexivity;
    rewrite (Z.compare_antisym ex ey); destruct (ex ?= ey)%Z; simpl;
    try reflexivity;
    rewrite ?(Pos.compare_cont_antisym mx my Eq); simpl;
    by destruct (Pos.compare_cont Eq my mx).
Qed.

Lemma ltb_cases (x y : float) :
  (x <? y)%float = true ->
  (x =? y)%float = false /\ (y =? x)%float = false /\ (y <? x)%float = false.
Proof.
  rewrite !FloatAxioms.ltb_spec, !FloatAxioms.eqb_spec. unfold SFltb, SFeqb.
  rewrite (SFcompare_antisym (Prim2SF x) (Prim2SF y)).
  by destruct (SFcompare (Prim2SF x) (Prim2SF y)) as [[]|].
Qed.

Lemma eqb_cases (x y : float) :
  (x =? y)%float = true ->
  (y =? x)%float = true /\ (x <? y)%float = false /\ (y <? x)%float = false.
Proof.
  rewrite !FloatAxioms.ltb_spec, !FloatAxioms.eqb_spec. unfold SFltb, SFeqb.
  rewrite (SFcompare_antisym (Prim2SF x) (Prim2SF y)).
  by destruct (SFcompare (Prim2SF x) (Prim2SF y)) as [[]|].
Qed.

(** ** The upload path and the minute mark *)

Section Scheduler.

Variable round : float -> Z -> float.
Variable str : float -> string.
Variable urlencode : gmap string string -> result string.
Variable measurement_interval : Z.
Variables wu_station_id wu_station_key : string.

Abbreviation upload' := (upload urlencode).
Abbreviation send' := (send urlencode).
Abbreviation minute_mark' weather_upload :=
  (minute_mark str urlencode measurement_interval weather_upload
     wu_station_id wu_station_key).
Abbreviation sample' weather_upload :=
  (sample round str urlencode measurement_interval weather_upload
     wu_station_id wu_station_key).
Abbreviation loop_body' weather_upload :=
  (loop_body round str urlencode measurement_interval weather_upload
     wu_station_id wu_station_key).
Abbreviation loop' weather_upload :=
  (loop round str urlencode measurement_interval weather_upload
     wu_station_id wu_station_key).

Lemma upload_returns (wd : gmap string string)
    (net : string -> result response) :
  (upload' wd net).2 = Ok tt.
Proof.
  unfold upload, send, try_except, bind, call, emit, logging_info.
  destruct (urlencode wd) as [q|x]; simpl; [|done].
  destruct (net _) as [[[html|x] [[]|y]]|x]; simpl; done.
Qed.

Lemma upload_catches (wd : gmap string string)
    (net : string -> result response) (x : exn) :
  (send' wd net).2 = Raise x ->
  upload' wd net = ((send' wd net).1 ++ handler_trace x, Ok tt).
Proof.
  unfold upload, try_except. destruct (send' wd net) as [l [[]|y]]; simpl.
  - discriminate.
  - intros [= ->]. reflexivity.
Qed.

Lemma upload_silent (wd : gmap string string)
    (net : string -> result response) :
  upload_events (upload' wd net).1 = 0%nat /\
  renders (upload' wd net).1 = [] /\
  passes (upload' wd net).1 = 0%nat.
Proof.
  unfold upload, send, try_except, bind, call, emit, logging_info.
  destruct (urlencode wd) as [q|x]; simpl; [|done].
  destruct (net _) as [[[html|x] [[]|y]]|x]; simpl; done.
Qed.

Lemma show_direction_trace (last_temp temp_f : float) :
  exists img, show_direction last_temp temp_f = ([EvSetPixels img], Ok tt) /\
    ((last_temp <? temp_f)%float = true -> img = arrow_up) /\
    ((temp_f <? last_temp)%float = true -> img = arrow_down) /\
    ((last_temp =? temp_f)%float = true -> img = bars).
Proof.
  unfold show_direction.
  destruct (last_temp =? temp_f)%float eqn:Heq; simpl.
  - exists bars. split; [done|].
    destruct (eqb_cases _ _ Heq) as (_ & H1 & H2).
    rewrite H1, H2. by repeat split.
  - destruct (temp_f <? last_temp)%float eqn:Hlt.
    + exists arrow_down. split; [done|].
      destruct (ltb_cases _ _ Hlt) as (_ & _ & H1). rewrite H1.
      by repeat split.
    + exists arrow_up. split; [done|]. by repeat split.
Qed.

Lemma show_direction_image (last_temp temp_f : float) (img : image) :
  show_direction last_temp temp_f = ([EvSetPixels img], Ok tt) ->
  img = arrow_up \/ img = arrow_down \/ img = bars.
Proof.
  unfold show_direction.
  destruct (last_temp =? temp_f)%float, (temp_f <? last_temp)%float; simpl;
    intros [= <-]; auto.
Qed.

Lemma minute_mark_trace (weather_upload : bool)
    (last_temp temp_f humidity pressure : float)
    (current_minute : Z) (net : string -> result response) :
  minute_mark' weather_upload last_temp temp_f humidity pressure
    current_minute net
  = (EvLog INFO (MsgMinuteMark measurement_interval current_minute)
       :: (show_direction last_temp temp_f).1
       ++ debug_fields str wu_station_id wu_station_key temp_f humidity
            pressure
       ++ (if weather_upload then
             EvLog INFO MsgUploading
               :: (upload' (build_weather_data str wu_station_id
                              wu_station_key temp_f humidity pressure)
                     net).1
           else [EvLog INFO MsgSkipping]),
     Ok temp_f).
Proof.
  unfold minute_mark.
  destruct (show_direction_trace last_temp temp_f) as (img & -> & _).
  destruct weather_upload.
  - pose proof (upload_returns
      (build_weather_data str wu_station_id wu_station_key temp_f humidity
         pressure) net) as Hup.
    destruct (upload' _ net) as [l r]. simpl in Hup. subst r.
    simpl. by rewrite app_nil_r.
  - reflexivity.
Qed.

Lemma minute_mark_counts (weather_upload : bool)
    (last_temp temp_f humidity pressure : float)
    (current_minute : Z) (net : string -> result response) :
  let l := (minute_mark' weather_upload last_temp temp_f humidity pressure
              current_minute net).1 in
  upload_events l = 1%nat /\
  passes l = 0%nat /\
  renders l = renders (show_direction last_temp temp_f).1.
Proof.
  rewrite minute_mark_trace.
  destruct (show_direction_trace last_temp temp_f) as (img & -> & _).
  destruct (upload_silent
    (build_weather_data str wu_station_id wu_station_key temp_f humidity
       pressure) net) as (Hu1 & Hu2 & Hu3).
  destruct weather_upload; simpl; rewrite ?Hu1, ?Hu2, ?Hu3; done.
Qed.

Lemma upload_requests (wd : gmap string string)
    (net : string -> result response) :
  requests (upload' wd net).1
  = match urlencode wd with
    | Ok query => [WU_URL +:+ "?" +:+ query]
    | Raise _ => []
    end.
Proof.
  unfold upload, send, try_except, bind, call, emit, logging_info.
  destruct (urlencode wd) as [q|x]; simpl; [|done].
  destruct (net _) as [[[html|x] [[]|y]]|x]; simpl; done.
Qed.

Lemma minute_mark_requests (weather_upload : bool)
    (last_temp temp_f humidity pressure : float)
    (current_minute : Z) (net : string -> result response) :
  requests (minute_mark' weather_upload last_temp temp_f humidity pressure
              current_minute net).1
  = if weather_upload then
      requests (upload' (build_weather_data str wu_station_id wu_station_key
                           temp_f humidity pressure) net).1
    else [].
Proof.
  rewrite minute_mark_trace.
  destruct (show_direction_trace last_temp temp_f) as (img & -> & _).
  by destruct weather_upload.
Qed.

(** ** One pass *)

Lemma sample_spec (weather_upload : bool) (st : loop_state)
    (env : tick_env) :
  store_ok (smooth_t st) ->
  measurement_interval <> 0%Z ->
  exists t calc_temp,
    get_temp (smooth_t st) (sensors env) = ([], Ok (t, calc_temp)) /\
    store_ok t /\
    let temp_c := round calc_temp 1 in
    let temp_f := round (c_to_f calc_temp) 1 in
    let humidity := round (get_humidity env) 0 in
    let pressure := round (get_pressure env * 0.0295300)%float 1 in
    let hit := fires measurement_interval st env in
    sample' weather_upload st env
    = (EvLog INFO (MsgReading temp_f temp_c pressure humidity)
         :: (if hit then
               (minute_mark' weather_upload (last_temp st) temp_f humidity
                  pressure (now_minute env) (urlopen env)).1
             else []),
       Ok {| smooth_t := t;
             last_temp := if hit then temp_f else last_temp st;
             last_minute := now_minute env |}).
Proof.
  intros Hok Hint.
  destruct (get_temp_ok (smooth_t st) (sensors env) Hok)
    as (t & calc_temp & Hget & Hok').
  exists t, calc_temp. split; [done|]. split; [done|].
  unfold sample, fires, due, py_mod. rewrite Hget, bind_ok.
  destruct (Z.eqb_spec measurement_interval 0) as [|_]; [done|].
  destruct (Z.eqb_spec (now_minute env) (last_minute st)) as [Heq|Hne]; simpl.
  - by rewrite Heq.
  - destruct (now_minute env =? 0)%Z; simpl.
    + rewrite minute_mark_trace. simpl. by rewrite app_nil_r.
    + destruct (now_minute env mod measurement_interval =? 0)%Z; simpl.
      * rewrite minute_mark_trace. simpl. by rewrite app_nil_r.
      * reflexivity.
Qed.

Lemma sample_net_irrelevant (weather_upload flag : bool)
    (st : loop_state) (env : tick_env) (net : string -> result response) :
  (sample' weather_upload st env).2
  = (sample round str urlencode measurement_interval flag wu_station_id
       wu_station_key st (with_urlopen env net)).2.
Proof.
  unfold sample, py_mod. simpl.
  destruct (get_temp (smooth_t st) (sensors env)) as [l [[t calc_temp]|x]];
    simpl; [|done].
  destruct (now_minute env =? last_minute st)%Z; simpl; [done|].
  destruct (now_minute env =? 0)%Z; simpl.
  - by rewrite !minute_mark_trace.
  - destruct (measurement_interval =? 0)%Z; simpl; [done|].
    destruct (now_minute env mod measurement_interval =? 0)%Z; simpl.
    + by rewrite !minute_mark_trace.
    + done.
Qed.

Lemma loop_body_net_irrelevant (weather_upload flag : bool)
    (st : loop_state) (env : tick_env) (net : string -> result response) :
  (loop_body' weather_upload st env).2
  = (loop_body round str urlencode measurement_interval flag wu_station_id
       wu_station_key st (with_urlopen env net)).2.
Proof.
  unfold loop_body. simpl.
  destruct ((now_second env =? 0)%Z || (now_second env mod 5 =? 0)%Z).
  - pose proof (sample_net_irrelevant weather_upload flag st env net) as H.
    destruct (sample' weather_upload st env) as [l1 r1].
    destruct (sample _ _ _ _ flag _ _ st (with_urlopen env net)) as [l2 r2].
    simpl in H. subst r2. by destruct r1.
  - reflexivity.
Qed.

Lemma loop_body_spec (weather_upload : bool) (st : loop_state)
    (env : tick_env) :
  store_ok (smooth_t st) ->
  measurement_interval <> 0%Z ->
  exists l st',
    loop_body' weather_upload st env = (l ++ [EvSleep 1], Ok st') /\
    store_ok (smooth_t st') /\
    passes l = 0%nat /\
    (if sampling_tick env then
       sample' weather_upload st env = (l, Ok st') /\
       last_minute st' = now_minute env /\
       upload_events l
       = (if fires measurement_interval st env then 1 else 0)%nat
     else l = [] /\ st' = st).
Proof.
  intros Hok Hint. unfold loop_body, sampling_tick.
  destruct ((now_second env =? 0)%Z || (now_second env mod 5 =? 0)%Z).
  - destruct (sample_spec weather_upload st env Hok Hint)
      as (t & calc_temp & _ & Hok' & Hs).
    simpl in Hs.
    destruct (minute_mark_counts weather_upload (last_temp st)
                (round (c_to_f calc_temp) 1) (round (get_humidity env) 0)
                (round (get_pressure env * 0.0295300)%float 1)
                (now_minute env) (urlopen env)) as (Hm1 & Hm2 & _).
    destruct (sample' weather_upload st env) as [l r].
    injection Hs as Hl Hr. subst r.
    eexists l, _. split; [by rewrite bind_emitted|]. split; [done|].
    subst l. destruct (fires measurement_interval st env); simpl.
    + by rewrite Hm1, Hm2.
    + done.
  - by exists [], st.
Qed.

(** A pass that reaches the minute mark got its temperature, moved the
    cursor and stored the rounded Fahrenheit value; nothing is assumed of
    the state or of the interval. *)
Lemma sample_upload_event (weather_upload : bool) (st : loop_state)
    (env : tick_env) :
  upload_events (sample' weather_upload st env).1 = 1%nat ->
  exists t calc_temp,
    get_temp (smooth_t st) (sensors env) = ([], Ok (t, calc_temp)) /\
    now_minute env <> last_minute st /\
    let temp_c := round calc_temp 1 in
    let temp_f := round (c_to_f calc_temp) 1 in
    let humidity := round (get_humidity env) 0 in
    let pressure := round (get_pressure env * 0.0295300)%float 1 in
    sample' weather_upload st env
    = (EvLog INFO (MsgReading temp_f temp_c pressure humidity)
         :: (minute_mark' weather_upload (last_temp st) temp_f humidity
               pressure (now_minute env) (urlopen env)).1,
       Ok {| smooth_t := t; last_temp := temp_f;
             last_minute := now_minute env |}).
Proof.
  unfold sample, py_mod.
  pose proof (get_temp_silent (smooth_t st) (sensors env)) as Hsil.
  destruct (get_temp (smooth_t st) (sensors env)) as [l0 [[t calc_temp]|x]];
    simpl in Hsil; subst l0; [|discriminate].
  rewrite bind_ok. intros Hev. exists t, calc_temp. split; [done|].
  destruct (Z.eqb_spec (now_minute env) (last_minute st)) as [Heq|Hne];
    simpl in Hev; [discriminate|].
  split; [done|]. simpl.
  destruct (now_minute env =? 0)%Z; simpl in *.
  - rewrite minute_mark_trace. simpl. by rewrite app_nil_r.
  - destruct (measurement_interval =? 0)%Z; simpl in *; [discriminate|].
    destruct (now_minute env mod measurement_interval =? 0)%Z; simpl in *;
      [|discriminate].
    rewrite minute_mark_trace. simpl. by rewrite app_nil_r.
Qed.

Lemma sample_events_flag_irrelevant (weather_upload flag : bool)
    (st : loop_state) (env : tick_env) :
  upload_events (sample' weather_upload st env).1
  = upload_events (sample' flag st env).1.
Proof.
  unfold sample, py_mod.
  destruct (get_temp (smooth_t st) (sensors env)) as [l [[t calc_temp]|x]];
    [|done].
  rewrite !bind_emitted. simpl. rewrite !upload_events_app. f_equal.
  destruct (now_minute env =? last_minute st)%Z; simpl; [done|].
  pose proof (fun flag => minute_mark_counts flag (last_temp st)
    (round (c_to_f calc_temp) 1) (round (get_humidity env) 0)
    (round (get_pressure env * 0.0295300)%float 1) (now_minute env)
    (urlopen env)) as Hm.
  pose proof (fun flag => minute_mark_trace flag (last_temp st)
    (round (c_to_f calc_temp) 1) (round (get_humidity env) 0)
    (round (get_pressure env * 0.0295300)%float 1) (now_minute env)
    (urlopen env)) as Ht.
  destruct (Hm weather_upload) as (H1 & _). destruct (Hm flag) as (H2 & _).
  simpl in H1, H2.
  destruct (now_minute env =? 0)%Z; simpl.
  - rewrite (Ht weather_upload), (Ht flag) in *. simpl in *.
    rewrite !app_nil_r. congruence.
  - destruct (measurement_interval =? 0)%Z; simpl;
      [done|].
    destruct (now_minute env mod measurement_interval =? 0)%Z; simpl;
      [|done].
    rewrite (Ht weather_upload), (Ht flag) in *. simpl in *.
    rewrite !app_nil_r. congruence.
Qed.

(** A sampling pass that is not an upload event keeps [last_temp]. *)
Lemma sample_quiet_keeps_last_temp (weather_upload : bool)
    (st st' : loop_state) (env : tick_env) (l : list event) :
  sample' weather_upload st env = (l, Ok st') ->
  upload_events l = 0%nat ->
  last_temp st' = last_temp st.
Proof.
  unfold sample, py_mod.
  pose proof (get_temp_silent (smooth_t st) (sensors env)) as Hsil.
  destruct (get_temp (smooth_t st) (sensors env)) as [l0 [[t calc_temp]|x]];
    simpl in Hsil; subst l0; [|discriminate].
  rewrite bind_ok.
  destruct (now_minute env =? last_minute st)%Z; simpl.
  { by intros [= <- <-]. }
  destruct (now_minute env =? 0)%Z; simpl.
  { rewrite minute_mark_trace. simpl. by intros [= <- <-]. }
  destruct (measurement_interval =? 0)%Z; simpl; [done|].
  destruct (now_minute env mod measurement_interval =? 0)%Z; simpl.
  - rewrite minute_mark_trace. simpl. by intros [= <- <-].
  - by intros [= <- <-].
Qed.

Lemma loop_body_quiet_keeps_last_temp (weather_upload : bool)
    (st st' : loop_state) (env : tick_env) (l : list event) :
  loop_body' weather_upload st env = (l, Ok st') ->
  upload_events l = 0%nat ->
  last_temp st' = last_temp st.
Proof.
  unfold loop_body.
  destruct ((now_second env =? 0)%Z || (now_second env mod 5 =? 0)%Z).
  - destruct (sample' weather_upload st env) as [l1 [st1|x]] eqn:Hs;
      [|discriminate].
    rewrite bind_emitted. simpl. intros [= <- <-].
    rewrite upload_events_app. intros Hev.
    apply (sample_quiet_keeps_last_temp _ _ _ _ _ Hs). lia.
  - by intros [= <- <-].
Qed.

(** ** Runs of the loop *)

Lemma loop_cons (weather_upload : bool) (st : loop_state) (env : tick_env)
    (envs : list tick_env) :
  loop' weather_upload st (env :: envs)
  = (let! st := loop_body' weather_upload st env in
     loop' weather_upload st envs).
Proof. reflexivity. Qed.

Lemma loop_total (weather_upload : bool) (envs : list tick_env)
    (st : loop_state) :
  store_ok (smooth_t st) ->
  measurement_interval <> 0%Z ->
  exists l st',
    loop' weather_upload st envs = (l, Ok st') /\
    store_ok (smooth_t st') /\
    passes l = length envs.
Proof.
  intros Hok Hint. revert st Hok.
  induction envs as [|env envs IH]; intros st Hok.
  - by exists [], st.
  - destruct (loop_body_spec weather_upload st env Hok Hint)
      as (l1 & st1 & Hbody & Hok1 & Hp1 & _).
    destruct (IH st1 Hok1) as (l2 & st2 & Hloop & Hok2 & Hp2).
    exists ((l1 ++ [EvSleep 1]) ++ l2), st2.
    rewrite loop_cons, Hbody, bind_emitted, Hloop.
    split; [done|]. split; [done|].
    rewrite !passes_app, Hp1, Hp2. reflexivity.
Qed.

Lemma loop_net_irrelevant (weather_upload flag : bool)
    (envs envs' : list tick_env) (st : loop_state) :
  Forall2 same_but_net envs envs' ->
  (loop' weather_upload st envs).2 = (loop' flag st envs').2.
Proof.
  intros Hall. revert st.
  induction Hall as [|env env' envs envs' Henv _ IH]; intros st; [done|].
  rewrite !loop_cons. red in Henv.
  pose proof (loop_body_net_irrelevant weather_upload flag st env
                (urlopen env')) as Hbody.
  rewrite <- Henv in Hbody.
  destruct (loop_body' weather_upload st env) as [l1 r1].
  destruct (loop_body' flag st env') as [l2 r2].
  simpl in Hbody. subst r2. destruct r1 as [st1|x]; [|done].
  rewrite !bind_emitted. simpl. apply IH.
Qed.

Lemma loop_quiet_keeps_last_temp (weather_upload : bool)
    (envs : list tick_env) (st st' : loop_state) (l : list event) :
  loop' weather_upload st envs = (l, Ok st') ->
  upload_events l = 0%nat ->
  last_temp st' = last_temp st.
Proof.
  revert st l. induction envs as [|env envs IH]; intros st l.
  - by intros [= <- <-].
  - rewrite loop_cons.
    destruct (loop_body' weather_upload st env) as [l1 [st1|x]] eqn:Hbody;
      [|discriminate].
    rewrite bind_emitted.
    destruct (loop' weather_upload st1 envs) as [l2 r2] eqn:Hloop.
    simpl. intros [= <- ->]. rewrite upload_events_app. intros Hev.
    rewrite (IH _ _ Hloop) by lia.
    apply (loop_body_quiet_keeps_last_temp _ _ _ _ _ Hbody). lia.
Qed.

End Scheduler.

(** ** Properties of the estimator *)

(** C4.  Starting from a fresh process, the value [get_temp] returns at
    call [n] is the mean of the compensated values of calls [n], [n-1] and
    [n-2], the indices stopping at the first call; every call returns. *)
Theorem get_temp_is_windowed_mean (inputs : list reading) :
  exists t outs,
    get_temp_calls None inputs = ([], Ok (t, outs)) /\
    forall n : nat, outs !! n = window_mean (compensated <$> inputs) n.
Proof.
  destruct inputs as [|s inputs].
  - exists None, []. split; [reflexivity|]. by intros [|n].
  - destruct (get_temp_calls_from inputs (compensated s) (compensated s)
                (compensated s)) as [t Ht].
    exists t, (smooth_from (compensated s) (compensated s)
                 (compensated <$> s :: inputs)).
    split.
    + rewrite get_temp_calls_cons, get_smooth_first, bind_ok, Ht.
      reflexivity.
    + intros n. rewrite smooth_from_lookup. unfold window_mean.
      destruct n as [|[|n]]; try reflexivity.
      simpl. replace (n - 0)%nat with n by lia.
      replace (n + 2)%nat with (S (S n)) by lia.
      replace (n + 1)%nat with (S n) by lia. reflexivity.
Qed.

(** C5, as the code has it.  The first call of the smoothing step seeds
    the three slots with [x] and returns the mean [(x + x + x) / 3] of the
    seeded slots, computed in binary64. *)
Theorem first_smooth_seeds_buffer (x : float) :
  get_smooth None x = ([], Ok (Some [x; x; x], ((x + x + x) / 3)%float)).
Proof.
  unfold get_smooth, list_get, list_set. simpl.
  reflexivity.
Qed.


(** C8.  [c_to_f] is the function [c * 1.8 + 32] of its argument alone;
    it sends 0 to 32 and 100 to 212 exactly. *)
Theorem c_to_f_exact :
  (forall c : float, c_to_f c = (c * 1.8 + 32)%float) /\
  c_to_f 0 = 32%float /\
  c_to_f 100 = 212%float.
Proof. repeat split. Qed.

(** ** Properties of the start-up *)

(** C2.  The cursor the loop starts with: the wrap is tested after the
    decrement, so minute 0 gives -1 and minute 1 gives 59; from minute 2
    on it is the previous minute. *)
Theorem init_last_minute_values :
  init_last_minute 0 = (-1)%Z /\
  init_last_minute 1 = 59%Z /\
  forall m : Z, (2 <= m <= 59)%Z -> init_last_minute m = (m - 1)%Z.
Proof.
  repeat split. intros m Hm. unfold init_last_minute.
  destruct (Z.eqb_spec (m - 1) 0); [lia | reflexivity].
Qed.

(** The cursor never starts on the current minute, so the guard lets the
    first sampled pass of that minute through. *)
Lemma init_last_minute_behind (m : Z) :
  (init_last_minute m =? m)%Z = false.
Proof.
  unfold init_last_minute. destruct (Z.eqb_spec (m - 1) 0); lia.
Qed.

(** ** Properties of the scheduler *)

Section Claims.

Variable round : float -> Z -> float.
Variable str : float -> string.
Variable urlencode : gmap string string -> result string.

Lemma due_every_ten (m : Z) :
  (0 <= m <= 59)%Z ->
  due 10 m = true <-> m ∈ ([0; 10; 20; 30; 40; 50] : list Z)%Z.
Proof.
  intros Hm. unfold due.
  rewrite orb_true_iff, !Z.eqb_eq, !elem_of_cons, elem_of_nil.
  split.
  - intros [-> | Hmod]; [by left|].
    pose proof (Z.div_mod m 10 ltac:(lia)) as Hdiv.
    assert (0 <= m / 10 <= 5)%Z as Hq.
    { split; [apply Z.div_pos; lia|].
      apply Z.lt_succ_r, Z.div_lt_upper_bound; lia. }
    lia.
  - intros [-> | [-> | [-> | [-> | [-> | [-> | []]]]]]];
      by (left + right).
Qed.

(** C6.  With [MEASUREMENT_INTERVAL = 10], take any stretch of passes that
    all read the same minute [m], from any state of the loop.  The stretch
    runs to its end and holds at most one upload event; it holds one
    exactly when [m] is one of 0, 10, 20, 30, 40, 50, the cursor is not
    already on [m], and some pass of the stretch is on a 5-second mark. *)
Theorem upload_once_per_tenth_minute
    (weather_upload : bool) (wu_station_id wu_station_key : string)
    (interval : Z) (st : loop_state) (envs : list tick_env) (m : Z) :
  MEASUREMENT_INTERVAL = Some interval ->
  store_ok (smooth_t st) ->
  (0 <= m <= 59)%Z ->
  Forall (fun env => now_minute env = m) envs ->
  exists l st',
    loop round str urlencode interval weather_upload wu_station_id
      wu_station_key st envs = (l, Ok st') /\
    (upload_events l <= 1)%nat /\
    (upload_events l = 1%nat <->
       m ∈ ([0; 10; 20; 30; 40; 50] : list Z)%Z /\
       last_minute st <> m /\
       Exists (fun env => sampling_tick env = true) envs).
Proof.
  intros [= <-] Hok Hm Hall. revert st Hok.
  induction Hall as [|env envs Henv Hall IH]; intros st Hok.
  - exists [], st. split; [done|]. split; [simpl; lia|].
    split; [discriminate|]. intros (_ & _ & Hex). inversion Hex.
  - destruct (loop_body_spec round str urlencode 10 wu_station_id
                wu_station_key weather_upload st env Hok ltac:(lia))
      as (l1 & st1 & Hbody & Hok1 & _ & Hcase).
    destruct (IH st1 Hok1) as (l2 & st2 & Hloop & Hle & Hiff).
    exists ((l1 ++ [EvSleep 1]) ++ l2), st2.
    rewrite loop_cons, Hbody, bind_emitted, Hloop.
    split; [done|]. rewrite !upload_events_app. simpl.
    rewrite Exists_cons.
    destruct (sampling_tick env) eqn:Hsamp.
    + destruct Hcase as (_ & Hcur & Hev). rewrite Henv in Hcur.
      assert (upload_events l2 = 0%nat) as ->.
      { destruct (upload_events l2) as [|[|k]]; [done| |lia].
        destruct Hiff as [Hiff _]. by destruct Hiff as (_ & ? & _). }
      rewrite Hev. unfold fires. rewrite Henv.
      pose proof (due_every_ten m Hm) as Hdue.
      destruct (Z.eqb_spec m (last_minute st)) as [Heq|Hne]; simpl.
      * split; [lia|]. split; [discriminate|]. intros (_ & ? & _). done.
      * destruct (due 10 m).
        -- split; [lia|]. split; [|done]. intros _.
           split; [by apply Hdue|]. split; [done|]. by left.
        -- split; [lia|]. split; [discriminate|].
           intros (Hin & _). by apply Hdue in Hin.
    + destruct Hcase as [-> ->]. simpl.
      split; [lia|]. rewrite Hiff.
      split.
      * intros (? & ? & ?). repeat split; [done..|by right].
      * intros (? & ? & [Hs|?]); [congruence|done].
Qed.

(** ** Properties of an upload event *)

Lemma indicators_distinct :
  arrow_up <> arrow_down /\ arrow_up <> bars /\ arrow_down <> bars.
Proof. repeat split; discriminate. Qed.

(** The examples of the direction logic: 70.0 then 71.2 shows the up
    arrow, 70.0 then 68.9 the down arrow, 70.0 then 70.0 the bars. *)
Lemma show_direction_examples :
  show_direction 70.0 71.2 = ([EvSetPixels arrow_up], Ok tt) /\
  show_direction 70.0 68.9 = ([EvSetPixels arrow_down], Ok tt) /\
  show_direction 70.0 70.0 = ([EvSetPixels bars], Ok tt).
Proof. repeat split. Qed.

(** C7.  A pass that is an upload event sends exactly one image to the
    display, one of the three indicators: the up arrow when the new
    rounded Fahrenheit value is above the stored one, the down arrow when
    it is below, the bars when the two are equal; and the state it leaves
    stores the new value. *)
Theorem upload_event_shows_direction
    (interval : Z) (weather_upload : bool)
    (wu_station_id wu_station_key : string)
    (st : loop_state) (env : tick_env) :
  upload_events
    (sample round str urlencode interval weather_upload wu_station_id
       wu_station_key st env).1 = 1%nat ->
  exists t calc_temp img st',
    get_temp (smooth_t st) (sensors env) = ([], Ok (t, calc_temp)) /\
    let new := round (c_to_f calc_temp) 1 in
    let previous := last_temp st in
    let pass := sample round str urlencode interval weather_upload
                  wu_station_id wu_station_key st env in
    renders pass.1 = [img] /\
    (img = arrow_up \/ img = arrow_down \/ img = bars) /\
    ((previous <? new)%float = true -> img = arrow_up) /\
    ((new <? previous)%float = true -> img = arrow_down) /\
    ((previous =? new)%float = true -> img = bars) /\
    pass.2 = Ok st' /\
    last_temp st' = new.
Proof.
  intros Hev.
  destruct (sample_upload_event round str urlencode interval wu_station_id
              wu_station_key weather_upload st env Hev)
    as (t & calc_temp & Hget & _ & Hs).
  simpl in Hs.
  destruct (minute_mark_counts str urlencode interval wu_station_id
              wu_station_key weather_upload (last_temp st)
              (round (c_to_f calc_temp) 1) (round (get_humidity env) 0)
              (round (get_pressure env * 0.0295300)%float 1)
              (now_minute env) (urlopen env)) as (_ & _ & Hr).
  destruct (show_direction_trace (last_temp st) (round (c_to_f calc_temp) 1))
    as (img & Hshow & Hup & Hdown & Hflat).
  pose proof (show_direction_image _ _ _ Hshow) as Himg.
  rewrite Hshow in Hr. simpl in Hr.
  exists t, calc_temp, img. eexists. split; [done|]. simpl.
  rewrite Hs. simpl. rewrite Hr. done.
Qed.


(** C9.  Take a pass that is an upload event when uploads are enabled.
    With [WEATHER_UPLOAD = False] the same pass is still an upload event,
    shows the same image, and leaves the same state, whose [last_temp] is
    the new rounded value; only the request is missing, and the skip is
    logged. *)
Theorem display_updates_when_upload_disabled
    (interval : Z) (wu_station_id wu_station_key : string)
    (st : loop_state) (env : tick_env) :
  upload_events
    (sample round str urlencode interval true wu_station_id wu_station_key
       st env).1 = 1%nat ->
  let on := sample round str urlencode interval true wu_station_id
              wu_station_key st env in
  let off := sample round str urlencode interval false wu_station_id
               wu_station_key st env in
  upload_events off.1 = 1%nat /\
  (exists img, renders off.1 = [img] /\ renders on.1 = [img]) /\
  requests off.1 = [] /\
  EvLog INFO MsgSkipping ∈ off.1 /\
  off.2 = on.2 /\
  exists t calc_temp,
    get_temp (smooth_t st) (sensors env) = ([], Ok (t, calc_temp)) /\
    off.2 = Ok {| smooth_t := t;
                  last_temp := round (c_to_f calc_temp) 1;
                  last_minute := now_minute env |}.
Proof.
  intros Hon. simpl.
  assert (upload_events
            (sample round str urlencode interval false wu_station_id
               wu_station_key st env).1 = 1%nat) as Hoff.
  { by rewrite (sample_events_flag_irrelevant round str urlencode interval
                  wu_station_id wu_station_key false true). }
  split; [done|].
  destruct (sample_upload_event round str urlencode interval wu_station_id
              wu_station_key true st env Hon)
    as (t & calc_temp & Hget & _ & Hs1).
  destruct (sample_upload_event round str urlencode interval wu_station_id
              wu_station_key false st env Hoff)
    as (t' & calc_temp' & Hget' & _ & Hs2).
  rewrite Hget in Hget'. injection Hget' as <- <-.
  simpl in Hs1, Hs2. rewrite Hs1, Hs2. simpl.
  pose proof (fun flag => minute_mark_counts str urlencode interval
    wu_station_id wu_station_key flag (last_temp st)
    (round (c_to_f calc_temp) 1) (round (get_humidity env) 0)
    (round (get_pressure env * 0.0295300)%float 1) (now_minute env)
    (urlopen env)) as Hm.
  destruct (Hm true) as (_ & _ & Hr1). destruct (Hm false) as (_ & _ & Hr2).
  simpl in Hr1, Hr2. rewrite Hr1, Hr2.
  destruct (show_direction_trace (last_temp st) (round (c_to_f calc_temp) 1))
    as (img & Hshow & _).
  rewrite Hshow. simpl.
  split; [by exists img|].
  split; [by rewrite minute_mark_requests|].
  split.
  { rewrite minute_mark_trace, Hshow. simpl. unfold debug_fields.
    rewrite !elem_of_cons. tauto. }
  split; [done|]. by exists t, calc_temp.
Qed.

(** The values an upload event puts in the request, shows and stores. *)
Lemma upload_event_values
    (interval : Z) (wu_station_id wu_station_key : string)
    (st : loop_state) (env : tick_env) :
  upload_events
    (sample round str urlencode interval true wu_station_id wu_station_key
       st env).1 = 1%nat ->
  exists t calc_temp,
    get_temp (smooth_t st) (sensors env) = ([], Ok (t, calc_temp)) /\
    let temp_f := round (c_to_f calc_temp) 1 in
    let humidity := round (get_humidity env) 0 in
    let pressure := round (get_pressure env * 0.0295300)%float 1 in
    let weather_data := build_weather_data str wu_station_id wu_station_key
                          temp_f humidity pressure in
    let pass := sample round str urlencode interval true wu_station_id
                  wu_station_key st env in
    weather_data !! "tempf" = Some (str temp_f) /\
    weather_data !! "humidity" = Some (str humidity) /\
    weather_data !! "baromin" = Some (str pressure) /\
    requests pass.1
    = match urlencode weather_data with
      | Ok query => [WU_URL +:+ "?" +:+ query]
      | Raise _ => []
      end /\
    renders pass.1 = renders (show_direction (last_temp st) temp_f).1 /\
    ((last_temp st =? temp_f)%float = true -> renders pass.1 = [bars]) /\
    pass.2 = Ok {| smooth_t := t; last_temp := temp_f;
                   last_minute := now_minute env |}.
Proof.
  intros Hev.
  destruct (sample_upload_event round str urlencode interval wu_station_id
              wu_station_key true st env Hev)
    as (t & calc_temp & Hget & _ & Hs).
  exists t, calc_temp. split; [done|]. simpl in *. rewrite Hs. simpl.
  destruct (minute_mark_counts str urlencode interval wu_station_id
              wu_station_key true (last_temp st)
              (round (c_to_f calc_temp) 1) (round (get_humidity env) 0)
              (round (get_pressure env * 0.0295300)%float 1)
              (now_minute env) (urlopen env)) as (_ & _ & Hr).
  simpl in Hr.
  split; [by unfold build_weather_data; simplify_map_eq|].
  split; [by unfold build_weather_data; simplify_map_eq|].
  split; [by unfold build_weather_data; simplify_map_eq|].
  split; [by rewrite minute_mark_requests, upload_requests|].
  split; [done|]. split; [|done].
  intros Heq. rewrite Hr.
  destruct (show_direction_trace (last_temp st) (round (c_to_f calc_temp) 1))
    as (img & -> & _ & _ & Hflat).
  simpl. by rewrite Hflat.
Qed.

(** C10.  At an upload event with uploads enabled, the values that go into
    the request are the rounded ones: [tempf] is the Fahrenheit value
    rounded to one decimal, [humidity] the humidity rounded to zero
    decimals, [baromin] the pressure times 0.0295300 rounded to one
    decimal; the one request made is for [WU_URL] followed by the encoded
    dictionary.  The direction is decided on the same rounded Fahrenheit
    value, which is also the value stored for the next comparison.  So of
    two upload events with none in between, the second shows the bars when
    the two rounded values are equal. *)
Theorem upload_sends_rounded_values
    (interval : Z) (wu_station_id wu_station_key : string) :
  (forall (st : loop_state) (env : tick_env),
      upload_events
        (sample round str urlencode interval true wu_station_id
           wu_station_key st env).1 = 1%nat ->
      exists t calc_temp,
        get_temp (smooth_t st) (sensors env) = ([], Ok (t, calc_temp)) /\
        let temp_f := round (c_to_f calc_temp) 1 in
        let humidity := round (get_humidity env) 0 in
        let pressure := round (get_pressure env * 0.0295300)%float 1 in
        let weather_data :=
          build_weather_data str wu_station_id wu_station_key temp_f
            humidity pressure in
        let pass := sample round str urlencode interval true wu_station_id
                      wu_station_key st env in
        weather_data !! "tempf" = Some (str temp_f) /\
        weather_data !! "humidity" = Some (str humidity) /\
        weather_data !! "baromin" = Some (str pressure) /\
        requests pass.1
        = match urlencode weather_data with
          | Ok query => [WU_URL +:+ "?" +:+ query]
          | Raise _ => []
          end /\
        renders pass.1 = renders (show_direction (last_temp st) temp_f).1 /\
        ((last_temp st =? temp_f)%float = true -> renders pass.1 = [bars]) /\
        pass.2 = Ok {| smooth_t := t; last_temp := temp_f;
                       last_minute := now_minute env |}) /\
  (forall (st st1 st2 st3 : loop_state) (env1 env2 : tick_env)
          (between : list tick_env) (l : list event),
      let first := sample round str urlencode interval true wu_station_id
                     wu_station_key st env1 in
      let second := sample round str urlencode interval true wu_station_id
                      wu_station_key st2 env2 in
      upload_events first.1 = 1%nat ->
      first.2 = Ok st1 ->
      loop round str urlencode interval true wu_station_id wu_station_key
        st1 between = (l, Ok st2) ->
      upload_events l = 0%nat ->
      upload_events second.1 = 1%nat ->
      second.2 = Ok st3 ->
      (last_temp st1 =? last_temp st3)%float = true ->
      renders second.1 = [bars]).
Proof.
  split; [intros st env; apply upload_event_values|].
  intros st st1 st2 st3 env1 env2 between l first second _ _ Hloop Hquiet
    Hev Hst3 Heq.
  destruct (upload_event_values interval wu_station_id wu_station_key st2
              env2 Hev)
    as (t & calc_temp & _ & _ & _ & _ & _ & _ & Hbars & Hs).
  simpl in Hbars, Hs. apply Hbars.
  unfold second in Hst3. rewrite Hs in Hst3. injection Hst3 as <-. simpl in Heq.
  by rewrite (loop_quiet_keeps_last_temp _ _ _ _ _ _ _ _ _ _ _ Hloop Hquiet).
Qed.

(** C1.  Whatever exception the request raises, [upload] catches it, logs
    it and returns; the state a pass leaves does not depend on how the
    network answers, nor on uploads being enabled; and a loop that starts
    in a good state with a non-zero interval completes every pass. *)
Theorem upload_failure_is_contained
    (interval : Z) (wu_station_id wu_station_key : string) :
  (forall (weather_data : gmap string string)
          (net : string -> result response) (x : exn),
      (send urlencode weather_data net).2 = Raise x ->
      upload urlencode weather_data net
      = ((send urlencode weather_data net).1 ++ handler_trace x, Ok tt)) /\
  (forall (weather_upload flag : bool) (st : loop_state)
          (envs envs' : list tick_env),
      Forall2 same_but_net envs envs' ->
      (loop round str urlencode interval weather_upload wu_station_id
         wu_station_key st envs).2
      = (loop round str urlencode interval flag wu_station_id
           wu_station_key st envs').2) /\
  (forall (weather_upload : bool) (st : loop_state) (envs : list tick_env),
      store_ok (smooth_t st) ->
      interval <> 0%Z ->
      exists l st',
        loop round str urlencode interval weather_upload wu_station_id
          wu_station_key st envs = (l, Ok st') /\
        store_ok (smooth_t st') /\
        passes l = length envs).
Proof.
  split; [|split].
  - intros weather_data net x. apply upload_catches.
  - intros weather_upload flag st envs envs'. apply loop_net_irrelevant.
  - intros weather_upload st envs Hok Hint. by apply loop_total.
Qed.

(** C3, as the code has it.  An interval above 60 ends [main] with exit
    code 1 after the banner and one log line, before the Sense HAT is
    touched; every interval up to 60, zero and negative ones included,
    passes the check. *)
Theorem check_interval_rejects_above_sixty
    (weather_upload : bool) (Config : config) (hw : hardware)
    (first : reading) (minute : Z) (envs : list tick_env) (interval : Z) :
  ((60 < interval)%Z ->
   let run := main round str urlencode (Some interval) weather_upload
                Config hw first minute envs in
   run.1 = banner.1 ++ [EvLog INFO MsgBadInterval] /\
   run.2 = Raise (SystemExit 1) /\
   exit_code run.2 = Some 1%Z) /\
  ((interval <= 60)%Z -> check_interval (Some interval) = ([], Ok interval)).
Proof.
  unfold main, check_interval. split; intros Hi.
  - destruct (Z.gtb_spec interval 60) as [_|]; [|lia]. by simpl.
  - destruct (Z.gtb_spec interval 60) as [|_]; [lia|]. done.
Qed.


End Claims.

(** ** Closed examples *)

(** The end-to-end scenario: humidity sensor 24.0, pressure sensor 22.0,
    CPU 30.0 give 18.33 on the first call and on the two that follow. *)
Lemma get_temp_end_to_end :
  let s := {| temperature_from_humidity := 24;
              temperature_from_pressure := 22;
              cpu_temp := 30 |} in
  get_temp_calls None [s; s; s]
  = ([], Ok (Some [18.333333333333332; 18.333333333333332;
                   18.333333333333332]%float,
             [18.333333333333332; 18.333333333333332;
              18.333333333333332]%float)).
Proof. reflexivity. Qed.

(** C5 as stated fails: for [x = 0.1] the first call returns
    [0.10000000000000002], which Python's [==] tells apart from [x]. *)
Lemma first_smooth_not_exact :
  get_smooth None 0.1
  = ([], Ok (Some [0.1; 0.1; 0.1]%float, 0.10000000000000002%float)) /\
  (0.10000000000000002 =? 0.1)%float = false.
Proof. split; reflexivity. Qed.

(** Four passes inside minute 10, from a cursor on minute 9: one upload
    event. *)
Lemma upload_once_per_tenth_minute_example :
  (MEASUREMENT_INTERVAL = Some 10%Z /\
   store_ok (smooth_t Scenario.started) /\
   (0 <= 10 <= 59)%Z /\
   Forall (fun env => now_minute env = 10%Z)
     (Scenario.minute_ten Scenario.online)) /\
  upload_events
    (loop Py.round Py.str Py.urlencode 10 true "KXX0000" "secret"
       Scenario.started (Scenario.minute_ten Scenario.online)).1 = 1%nat.
Proof.
  assert (MEASUREMENT_INTERVAL = Some 10%Z) as H1 by reflexivity.
  assert (store_ok (smooth_t Scenario.started)) as H2 by reflexivity.
  assert (0 <= 10 <= 59)%Z as H3 by lia.
  assert (Forall (fun env => now_minute env = 10%Z)
            (Scenario.minute_ten Scenario.online)) as H4
    by (repeat constructor).
  split; [done|].
  destruct (upload_once_per_tenth_minute Py.round Py.str Py.urlencode true
              "KXX0000" "secret" 10 Scenario.started
              (Scenario.minute_ten Scenario.online) 10 H1 H2 H3 H4)
    as (l & st' & -> & _ & Hiff).
  apply Hiff. split; [rewrite !elem_of_cons; by right; left|].
  split; [done|]. by left.
Defined.

(** From 68.0 to 71.0 degrees Fahrenheit: the up arrow. *)
Lemma upload_event_shows_direction_example :
  upload_events
    (sample Py.round Py.str Py.urlencode 10 true "KXX0000" "secret"
       Scenario.started (Scenario.pass 10 0 25 Scenario.online)).1 = 1%nat /\
  renders
    (sample Py.round Py.str Py.urlencode 10 true "KXX0000" "secret"
       Scenario.started (Scenario.pass 10 0 25 Scenario.online)).1
  = [arrow_up].
Proof.
  assert (upload_events
    (sample Py.round Py.str Py.urlencode 10 true "KXX0000" "secret"
       Scenario.started (Scenario.pass 10 0 25 Scenario.online)).1 = 1%nat)
    as Hev by (vm_compute; reflexivity).
  split; [exact Hev|].
  destruct (upload_event_shows_direction Py.round Py.str Py.urlencode 10
              true "KXX0000" "secret" Scenario.started
              (Scenario.pass 10 0 25 Scenario.online) Hev)
    as (t & calc_temp & img & st' & Hget & Hr & _ & Hup & _).
  simpl in Hr. rewrite Hr. f_equal. apply Hup.
  vm_compute in Hget. injection Hget as _ <-.
  vm_compute. reflexivity.
Defined.

(** C3 as stated fails: with an interval of 0, or of -5, the check passes;
    [main] goes on to initialise the hardware and takes the first
    reading, and the process is still running. *)
Lemma check_interval_accepts_zero :
  check_interval (Some 0%Z) = ([], Ok 0%Z) /\
  check_interval (Some (-5)%Z) = ([], Ok (-5)%Z) /\
  (let run := main Py.round Py.str Py.urlencode (Some 0%Z) true
                Scenario.station Scenario.working (Scenario.steady 20) 9 []
   in exit_code run.2 = None /\
      EvLog INFO (MsgInitialTemp 68%float) ∈ run.1).
Proof.
  split; [done|]. split; [done|]. split; [done|].
  apply list_elem_of_In. vm_compute. tauto.
Qed.

(** The same pass with uploads disabled: no request, the same state. *)
Lemma display_updates_when_upload_disabled_example :
  upload_events
    (sample Py.round Py.str Py.urlencode 10 true "KXX0000" "secret"
       Scenario.started (Scenario.pass 10 0 25 Scenario.online)).1 = 1%nat /\
  requests
    (sample Py.round Py.str Py.urlencode 10 false "KXX0000" "secret"
       Scenario.started (Scenario.pass 10 0 25 Scenario.online)).1 = [] /\
  (sample Py.round Py.str Py.urlencode 10 false "KXX0000" "secret"
     Scenario.started (Scenario.pass 10 0 25 Scenario.online)).2
  = (sample Py.round Py.str Py.urlencode 10 true "KXX0000" "secret"
       Scenario.started (Scenario.pass 10 0 25 Scenario.online)).2.
Proof.
  assert (upload_events
    (sample Py.round Py.str Py.urlencode 10 true "KXX0000" "secret"
       Scenario.started (Scenario.pass 10 0 25 Scenario.online)).1 = 1%nat)
    as Hev by (vm_compute; reflexivity).
  split; [exact Hev|].
  destruct (display_updates_when_upload_disabled Py.round Py.str
              Py.urlencode 10 "KXX0000" "secret" Scenario.started
              (Scenario.pass 10 0 25 Scenario.online) Hev)
    as (_ & _ & Hreq & _ & Hsame & _).
  split; [exact Hreq | exact Hsame].
Defined.

(** 1013.25 millibars go out as 29.9; the pass stores 71.0; the next
    upload event, again at 71.0, shows the bars. *)
Lemma upload_sends_rounded_values_example :
  upload_events
    (sample Py.round Py.str Py.urlencode 10 true "KXX0000" "secret"
       Scenario.started (Scenario.pass 10 0 25 Scenario.online)).1 = 1%nat /\
  build_weather_data Py.str "KXX0000" "secret" 71 45 29.9
    !! "baromin" = Some "29.9" /\
  (sample Py.round Py.str Py.urlencode 10 true "KXX0000" "secret"
     Scenario.started (Scenario.pass 10 0 25 Scenario.online)).2
  = Ok Scenario.uploaded /\
  renders
    (sample Py.round Py.str Py.urlencode 10 true "KXX0000" "secret"
       Scenario.uploaded (Scenario.pass 20 0 20 Scenario.online)).1
  = [bars].
Proof.
  assert (upload_events
    (sample Py.round Py.str Py.urlencode 10 true "KXX0000" "secret"
       Scenario.started (Scenario.pass 10 0 25 Scenario.online)).1 = 1%nat)
    as Hev by (vm_compute; reflexivity).
  split; [exact Hev|].
  destruct (upload_sends_rounded_values Py.round Py.str Py.urlencode 10
              "KXX0000" "secret") as [Hvalues Hflat].
  destruct (Hvalues Scenario.started (Scenario.pass 10 0 25 Scenario.online)
              Hev)
    as (t & calc_temp & Hget & _ & _ & Hbaro & _ & _ & _ & Hstate).
  vm_compute in Hget. injection Hget as <- <-.
  split; [exact Hbaro|]. split; [exact Hstate|].
  apply (Hflat Scenario.started Scenario.uploaded Scenario.uploaded
           {| smooth_t := Some [20; 25; 20]%float; last_temp := 71%float;
              last_minute := 20 |}
           (Scenario.pass 10 0 25 Scenario.online)
           (Scenario.pass 20 0 20 Scenario.online)
           [Scenario.pass 10 1 25 Scenario.online] [EvSleep 1]);
    vm_compute; reflexivity.
Defined.

(** With the network unreachable the error is logged and the run ends in
    the state it ends in with the network up. *)
Lemma upload_failure_is_contained_example :
  upload Py.urlencode (build_weather_data Py.str "KXX0000" "secret" 71 45 29.9)
    Scenario.offline
  = ((send Py.urlencode
        (build_weather_data Py.str "KXX0000" "secret" 71 45 29.9)
        Scenario.offline).1
       ++ handler_trace (URLError "Network is unreachable"), Ok tt) /\
  (loop Py.round Py.str Py.urlencode 10 true "KXX0000" "secret"
     Scenario.started (Scenario.minute_ten Scenario.offline)).2
  = (loop Py.round Py.str Py.urlencode 10 true "KXX0000" "secret"
       Scenario.started (Scenario.minute_ten Scenario.online)).2.
Proof.
  destruct (upload_failure_is_contained Py.round Py.str Py.urlencode 10
              "KXX0000" "secret") as (Hcatch & Hnet & _).
  split.
  - apply Hcatch. vm_compute. reflexivity.
  - apply Hnet. repeat constructor.
Defined.

(** An interval of 61 ends [main] with exit code 1. *)
Lemma check_interval_rejects_above_sixty_example :
  (60 < 61)%Z /\
  exit_code
    (main Py.round Py.str Py.urlencode (Some 61%Z) true Scenario.station
       Scenario.working (Scenario.steady 20) 9 []).2 = Some 1%Z.
Proof.
  assert (60 < 61)%Z as H by lia. split; [exact H|].
  destruct (check_interval_rejects_above_sixty Py.round Py.str Py.urlencode
              true Scenario.station Scenario.working (Scenario.steady 20) 9
              [] 61) as [Hexit _].
  apply (Hexit H).
Defined.

(** ** More of the code: the CPU temperature *)

Lemma replace_absent (old new s : string) :
  absent old s -> replace_from 0 old new s = s.
Proof.
  induction s as [|c s IH].
  - intros [Hold _]. by destruct old.
  - intros [Hold Hs]. cbn [replace_from]. rewrite Hold. by rewrite IH.
Qed.

(** An occurrence of [old] cannot run into a text that starts with a
    character [old] does not have. *)
Lemma startswith_app_other (c0 : ascii) (t old s : string) :
  lacks c0 old ->
  startswith old s = false ->
  startswith old (s +:+ String c0 t) = false.
Proof.
  revert s. induction old as [|a old IH]; intros s Hlacks Hs; [done|].
  destruct Hlacks as [Ha Hold]. destruct s as [|c s]; simpl in *.
  - by destruct (decide (a = c0)).
  - destruct (decide (a = c)); [by apply IH | done].
Qed.

Lemma absent_app_other (c0 : ascii) (t old s : string) :
  lacks c0 old ->
  absent old (String c0 t) ->
  absent old s ->
  absent old (s +:+ String c0 t).
Proof.
  intros Hlacks Ht. induction s as [|c s IH]; [done|].
  intros [Hc Hs]. split; [|by apply IH].
  by apply (startswith_app_other c0 t old (String c s)).
Qed.

(** ['C] and a newline share no end with their own start, so an
    occurrence cannot begin before the suffix and end inside it. *)
Lemma startswith_suffix_app (c : ascii) (s : string) :
  startswith degrees_suffix (String c s) = false ->
  startswith degrees_suffix (String c s +:+ degrees_suffix) = false.
Proof.
  unfold degrees_suffix.
  destruct s as [|c2 [|c3 s]]; simpl;
    repeat (case_decide; simplify_eq; try done).
Qed.

Lemma replace_suffix (d : string) :
  absent degrees_suffix d ->
  replace_from 0 degrees_suffix "" (d +:+ degrees_suffix) = d.
Proof.
  induction d as [|c d IH]; [done|].
  intros [Hc Hd].
  change (String c d +:+ degrees_suffix)
    with (String c (d +:+ degrees_suffix)).
  cbn [replace_from].
  change (String c (d +:+ degrees_suffix))
    with (String c d +:+ degrees_suffix).
  rewrite (startswith_suffix_app c d Hc). by rewrite IH.
Qed.

Lemma strip_markers (d : string) :
  marker_free d ->
  py_replace (py_replace ("temp=" +:+ d +:+ degrees_suffix) "temp=" "")
    degrees_suffix "" = d /\
  py_replace (py_replace d "temp=" "") degrees_suffix "" = d.
Proof.
  intros [Ht Hq]. unfold py_replace. split.
  - replace (replace_from 0 "temp=" "" ("temp=" +:+ d +:+ degrees_suffix))
      with (d +:+ degrees_suffix).
    + by apply replace_suffix.
    + simpl. symmetry. apply replace_absent.
      apply absent_app_other; [|done..].
      simpl. repeat split; discriminate.
  - by rewrite (replace_absent "temp=" "" d Ht), replace_absent.
Qed.

(** X1.  From a line [temp=<d>'C] and its newline, where [d] contains
    neither marker, [get_cpu_temp] hands exactly [d] to [float]; a line
    that contains neither marker, the empty one included, is handed over
    unchanged. *)
Theorem get_cpu_temp_strips_markers
    (float : string -> result PrimFloat.float) (d : string) :
  marker_free d ->
  get_cpu_temp float ("temp=" +:+ d +:+ degrees_suffix) = ([], float d) /\
  get_cpu_temp float d = ([], float d).
Proof.
  intros Hfree. unfold get_cpu_temp, call.
  destruct (strip_markers d Hfree) as [-> ->]. done.
Qed.

(** The line of a Pi at 48.3 degrees, and a line that is no reading. *)
Lemma get_cpu_temp_strips_markers_example :
  (marker_free "48.3" /\ marker_free "throttled") /\
  get_cpu_temp (fun s => if decide (s = "48.3") then Ok 48.3%float
                         else Raise (OtherError "ValueError"))
    ("temp=48.3" +:+ degrees_suffix) = ([], Ok 48.3%float) /\
  get_cpu_temp (fun s => if decide (s = "48.3") then Ok 48.3%float
                         else Raise (OtherError "ValueError"))
    "throttled" = ([], Raise (OtherError "ValueError")).
Proof.
  assert (marker_free "48.3") as H1.
  { unfold marker_free. simpl. by repeat split. }
  assert (marker_free "throttled") as H2.
  { unfold marker_free. simpl. by repeat split. }
  split; [done|]. split.
  - exact (proj1 (get_cpu_temp_strips_markers
                    (fun s => if decide (s = "48.3") then Ok 48.3%float
                              else Raise (OtherError "ValueError"))
                    "48.3" H1)).
  - exact (proj2 (get_cpu_temp_strips_markers
                    (fun s => if decide (s = "48.3") then Ok 48.3%float
                              else Raise (OtherError "ValueError"))
                    "throttled" H2)).
Defined.

(** ** More of the code: the start-up *)

Section Coverage.

Variable round : float -> Z -> float.
Variable str : float -> string.
Variable urlencode : gmap string string -> result string.

Lemma check_interval_passes (interval : Z) :
  (interval <= 60)%Z -> check_interval (Some interval) = ([], Ok interval).
Proof.
  intros Hi. unfold check_interval.
  by destruct (Z.gtb_spec interval 60) as [|_]; [lia|].
Qed.

(** X2.  With an interval that passes, a configuration that lacks the
    station id or the station key ends [main] with exit code 1 right after
    the two configuration log lines: the Sense HAT is not touched and
    nothing is sampled. *)
Theorem main_stops_on_missing_credentials
    (interval : Z) (weather_upload : bool) (Config : config)
    (hw : hardware) (first : reading) (minute : Z) (envs : list tick_env) :
  (interval <= 60)%Z ->
  STATION_ID Config = None \/ STATION_KEY Config = None ->
  main round str urlencode (Some interval) weather_upload Config hw first
    minute envs
  = (banner.1 ++ [EvLog INFO MsgInitConfig; EvLog INFO MsgMissingConfig],
     Raise (SystemExit 1)).
Proof.
  intros Hi Hmissing. unfold main.
  rewrite (check_interval_passes interval Hi). unfold read_config.
  destruct Hmissing as [-> | ->]; [|destruct (STATION_ID Config)]; done.
Qed.

(** X3.  With a good interval and both credentials, whatever exception the
    first failing Sense HAT call raises, a keyboard interrupt included,
    [main] logs it and ends with exit code 1; the handler's lines are the
    last of the trace, so the loop is never entered. *)
Theorem main_stops_on_sense_hat_failure
    (interval : Z) (weather_upload : bool) (Config : config)
    (hw : hardware) (first : reading) (minute : Z) (envs : list tick_env)
    (wu_station_id wu_station_key : string) (x : exn) :
  (interval <= 60)%Z ->
  STATION_ID Config = Some wu_station_id ->
  STATION_KEY Config = Some wu_station_key ->
  init_failure hw = Some x ->
  exists l,
    main round str urlencode (Some interval) weather_upload Config hw first
      minute envs
    = (l ++ [EvLog INFO MsgSenseFailed;
             EvLog ERROR (MsgExceptionType "list");
             EvLog ERROR (MsgError x);
             EvPrintExc x],
       Raise (SystemExit 1)) /\
    EvLog INFO MsgInitComplete ∉ l.
Proof.
  intros Hi Hid Hkey Hfail. unfold main.
  rewrite (check_interval_passes interval Hi). unfold read_config.
  rewrite Hid, Hkey. unfold init_failure in Hfail.
  unfold init_sense_hat, try_except, call.
  destruct (SenseHat hw) as [[]|x1]; simpl.
  - destruct (show_message hw) as [[]|x2]; simpl.
    + destruct (clear hw) as [[]|x3]; [done|]. injection Hfail as ->. simpl.
      eexists (_ :: _ :: _ :: _ :: _ :: _ :: _ :: _ :: _ :: _ :: [_]).
      split; [reflexivity|].
      rewrite !not_elem_of_cons. repeat split; try discriminate.
      apply not_elem_of_nil.
    + injection Hfail as ->.
      eexists (_ :: _ :: _ :: _ :: _ :: _ :: _ :: _ :: _ :: [_]).
      split; [reflexivity|].
      rewrite !not_elem_of_cons. repeat split; try discriminate.
      apply not_elem_of_nil.
  - injection Hfail as ->.
    eexists (_ :: _ :: _ :: _ :: _ :: _ :: _ :: _ :: [_]).
    split; [reflexivity|].
    rewrite !not_elem_of_cons. repeat split; try discriminate.
    apply not_elem_of_nil.
Qed.

(** X4.  When the interval passes, both credentials are there and the three
    Sense HAT calls succeed, [main] is its start-up lines followed by
    [processing_loop], run with the interval and the credentials read, on a
    smoothing attribute that does not exist yet. *)
Theorem main_enters_processing_loop
    (interval : Z) (weather_upload : bool) (Config : config)
    (hw : hardware) (first : reading) (minute : Z) (envs : list tick_env)
    (wu_station_id wu_station_key : string) :
  (interval <= 60)%Z ->
  STATION_ID Config = Some wu_station_id ->
  STATION_KEY Config = Some wu_station_key ->
  init_failure hw = None ->
  let run := processing_loop round str urlencode interval weather_upload
               wu_station_id wu_station_key None first minute envs in
  main round str urlencode (Some interval) weather_upload Config hw first
    minute envs
  = (startup_trace wu_station_id wu_station_key ++ run.1, run.2).
Proof.
  intros Hi Hid Hkey Hfail. unfold main.
  rewrite (check_interval_passes interval Hi). unfold read_config.
  rewrite Hid, Hkey. unfold init_failure in Hfail.
  unfold init_sense_hat, try_except, call.
  destruct (SenseHat hw) as [[]|x1]; [|done].
  destruct (show_message hw) as [[]|x2]; [|done].
  destruct (clear hw) as [[]|x3]; [|done]. simpl.
  by destruct (processing_loop _ _ _ _ _ _ _ _ _ _ _) as [l r].
Qed.

(** ** More of the code: what a run shows and requests *)

Lemma orderly_app (weather_upload : bool) (l1 l2 : list event) :
  orderly weather_upload l1 -> orderly weather_upload l2 ->
  orderly weather_upload (l1 ++ l2).
Proof.
  intros (H1 & H2 & H3 & H4 & H5) (K1 & K2 & K3 & K4 & K5). unfold orderly.
  rewrite renders_app, requests_app, upload_events_app, !length_app,
    !Forall_app.
  repeat split; try done; try lia.
  intros Hoff. by rewrite H5, K5.
Qed.

Lemma orderly_quiet (weather_upload : bool) (l : list event) :
  renders l = [] -> requests l = [] -> upload_events l = 0%nat ->
  orderly weather_upload l.
Proof.
  intros H1 H2 H3. unfold orderly. rewrite H1, H2, H3. by repeat split.
Qed.

Lemma minute_mark_orderly (interval : Z) (weather_upload : bool)
    (wu_station_id wu_station_key : string)
    (last_temp temp_f humidity pressure : float) (current_minute : Z)
    (net : string -> result response) :
  orderly weather_upload
    (minute_mark str urlencode interval weather_upload wu_station_id
       wu_station_key last_temp temp_f humidity pressure current_minute
       net).1.
Proof.
  destruct (minute_mark_counts str urlencode interval wu_station_id
              wu_station_key weather_upload last_temp temp_f humidity
              pressure current_minute net) as (He & _ & Hr).
  pose proof (minute_mark_requests str urlencode interval wu_station_id
                wu_station_key weather_upload last_temp temp_f humidity
                pressure current_minute net) as Hq.
  simpl in He, Hr. unfold orderly. rewrite He, Hr, Hq.
  destruct (show_direction_trace last_temp temp_f) as (img & Hshow & _).
  pose proof (show_direction_image _ _ _ Hshow) as Himg.
  rewrite Hshow. simpl.
  split; [done|]. split; [by constructor|].
  destruct weather_upload.
  - rewrite upload_requests.
    destruct (urlencode _) as [query|x]; simpl.
    + split; [lia|]. split; [|done]. constructor; [by exists query|done].
    + split; [lia|]. by split.
  - simpl. split; [lia|]. by split.
Qed.

Lemma sample_orderly (interval : Z) (weather_upload : bool)
    (wu_station_id wu_station_key : string) (st : loop_state)
    (env : tick_env) :
  orderly weather_upload
    (sample round str urlencode interval weather_upload wu_station_id
       wu_station_key st env).1.
Proof.
  unfold sample, py_mod.
  pose proof (get_temp_silent (smooth_t st) (sensors env)) as Hsil.
  destruct (get_temp (smooth_t st) (sensors env)) as [l0 [[t calc_temp]|x]];
    simpl in Hsil; subst l0; [|by apply orderly_quiet].
  rewrite bind_ok.
  pose proof (minute_mark_orderly interval weather_upload wu_station_id
    wu_station_key (last_temp st) (round (c_to_f calc_temp) 1)
    (round (get_humidity env) 0)
    (round (get_pressure env * 0.0295300)%float 1) (now_minute env)
    (urlopen env)) as Hmark.
  pose proof (minute_mark_trace str urlencode interval wu_station_id
    wu_station_key weather_upload (last_temp st)
    (round (c_to_f calc_temp) 1) (round (get_humidity env) 0)
    (round (get_pressure env * 0.0295300)%float 1) (now_minute env)
    (urlopen env)) as Htrace.
  destruct (minute_mark _ _ _ _ _ _ _ _ _ _ _ _) as [lm rm].
  injection Htrace as _ ->. simpl in Hmark.
  destruct (now_minute env =? last_minute st)%Z; simpl;
    [by apply orderly_quiet|].
  destruct (now_minute env =? 0)%Z; simpl.
  { rewrite app_nil_r.
    by apply (orderly_app _ [_] lm); [apply orderly_quiet|]. }
  destruct (interval =? 0)%Z; simpl; [by apply orderly_quiet|].
  destruct (now_minute env mod interval =? 0)%Z; simpl;
    [|by apply orderly_quiet].
  rewrite app_nil_r.
  by apply (orderly_app _ [_] lm); [apply orderly_quiet|].
Qed.

Lemma loop_body_orderly (interval : Z) (weather_upload : bool)
    (wu_station_id wu_station_key : string) (st : loop_state)
    (env : tick_env) :
  orderly weather_upload
    (loop_body round str urlencode interval weather_upload wu_station_id
       wu_station_key st env).1.
Proof.
  unfold loop_body.
  destruct ((now_second env =? 0)%Z || (now_second env mod 5 =? 0)%Z).
  - pose proof (sample_orderly interval weather_upload wu_station_id
                  wu_station_key st env) as Hs.
    destruct (sample _ _ _ _ _ _ _ st env) as [l [st1|x]]; simpl in *.
    + by apply orderly_app; [|apply orderly_quiet].
    + done.
  - by apply orderly_quiet.
Qed.

Lemma loop_orderly (interval : Z) (weather_upload : bool)
    (wu_station_id wu_station_key : string) (envs : list tick_env)
    (st : loop_state) :
  orderly weather_upload
    (loop round str urlencode interval weather_upload wu_station_id
       wu_station_key st envs).1.
Proof.
  revert st. induction envs as [|env envs IH]; intros st.
  - by apply orderly_quiet.
  - rewrite loop_cons.
    pose proof (loop_body_orderly interval weather_upload wu_station_id
                  wu_station_key st env) as Hb.
    destruct (loop_body _ _ _ _ _ _ _ st env) as [l1 [st1|x]]; [|done].
    rewrite bind_emitted. simpl in *. by apply orderly_app.
Qed.

Lemma indicators_ok :
  image_ok arrow_up /\ image_ok arrow_down /\ image_ok bars.
Proof.
  unfold image_ok, pixel_ok, arrow_up, arrow_down, bars, Display.e,
    Display.r, Display.b.
  repeat first [ apply Forall_nil | apply Forall_cons | split | reflexivity
               | lia ].
Qed.

(** X5.  In any run of the loop, from any state and under any interval,
    the display is written once per upload event, and every image written
    is the up arrow, the down arrow or the bars, each of which has the 64
    pixels of three channels in 0..255 that [set_pixels] accepts. *)
Theorem run_shows_valid_indicators
    (interval : Z) (weather_upload : bool)
    (wu_station_id wu_station_key : string) (st : loop_state)
    (envs : list tick_env) :
  let l := (loop round str urlencode interval weather_upload
              wu_station_id wu_station_key st envs).1 in
  length (renders l) = upload_events l /\
  Forall (fun img =>
            (img = arrow_up \/ img = arrow_down \/ img = bars) /\
            image_ok img)
    (renders l).
Proof.
  destruct (loop_orderly interval weather_upload wu_station_id
              wu_station_key envs st) as (H1 & H2 & _).
  simpl. split; [done|].
  eapply Forall_impl; [exact H2|]. simpl.
  destruct indicators_ok as (Hup & Hdown & Hbars).
  intros img Himg. split; [done|].
  by destruct Himg as [-> | [-> | ->]].
Qed.

(** X6.  In any run of the loop there are at most as many requests as
    upload events, every request is for [WU_URL] followed by [?] and a
    query, and with uploads disabled no request is made at all. *)
Theorem run_requests_only_uploads
    (interval : Z) (weather_upload : bool)
    (wu_station_id wu_station_key : string) (st : loop_state)
    (envs : list tick_env) :
  let l := (loop round str urlencode interval weather_upload
              wu_station_id wu_station_key st envs).1 in
  (length (requests l) <= upload_events l)%nat /\
  Forall (fun url => exists query, url = WU_URL +:+ "?" +:+ query)
    (requests l) /\
  (weather_upload = false -> requests l = []).
Proof.
  destruct (loop_orderly interval weather_upload wu_station_id
              wu_station_key envs st) as (_ & _ & H3 & H4 & H5).
  done.
Qed.

(** ** More of the code: what a run leaves behind *)

Lemma sample_returned (interval : Z) (weather_upload : bool)
    (wu_station_id wu_station_key : string) (st st' : loop_state)
    (env : tick_env) (l : list event) :
  sample round str urlencode interval weather_upload wu_station_id
    wu_station_key st env = (l, Ok st') ->
  (exists v, get_temp (smooth_t st) (sensors env)
             = ([], Ok (smooth_t st', v))) /\
  last_minute st' = now_minute env.
Proof.
  unfold sample, py_mod.
  pose proof (get_temp_silent (smooth_t st) (sensors env)) as Hsil.
  destruct (get_temp (smooth_t st) (sensors env)) as [l0 [[t calc_temp]|x]];
    simpl in Hsil; subst l0; [|discriminate].
  rewrite bind_ok.
  destruct (Z.eqb_spec (now_minute env) (last_minute st)) as [Heq|_]; simpl.
  { intros [= <- <-]. split; [by eexists|done]. }
  destruct (now_minute env =? 0)%Z; simpl.
  { rewrite minute_mark_trace. simpl. intros [= <- <-].
    split; [by eexists|done]. }
  destruct (interval =? 0)%Z; simpl; [done|].
  destruct (now_minute env mod interval =? 0)%Z; simpl.
  - rewrite minute_mark_trace. simpl. intros [= <- <-].
    split; [by eexists|done].
  - intros [= <- <-]. split; [by eexists|done].
Qed.

Lemma loop_body_off_mark (interval : Z) (weather_upload : bool)
    (wu_station_id wu_station_key : string) (st : loop_state)
    (env : tick_env) :
  sampling_tick env = false ->
  loop_body round str urlencode interval weather_upload wu_station_id
    wu_station_key st env = ([EvSleep 1], Ok st).
Proof. unfold loop_body, sampling_tick. by intros ->. Qed.

Lemma loop_body_on_mark (interval : Z) (weather_upload : bool)
    (wu_station_id wu_station_key : string) (st : loop_state)
    (env : tick_env) :
  sampling_tick env = true ->
  loop_body round str urlencode interval weather_upload wu_station_id
    wu_station_key st env
  = (let! st := sample round str urlencode interval weather_upload
                  wu_station_id wu_station_key st env in
     emit (EvSleep 1) ;;; ret st).
Proof. unfold loop_body, sampling_tick. by intros ->. Qed.

Lemma loop_cons_on_mark (interval : Z) (weather_upload : bool)
    (wu_station_id wu_station_key : string) (st st1 : loop_state)
    (env : tick_env) (envs : list tick_env) (l1 : list event) :
  sampling_tick env = true ->
  sample round str urlencode interval weather_upload wu_station_id
    wu_station_key st env = (l1, Ok st1) ->
  loop round str urlencode interval weather_upload wu_station_id
    wu_station_key st (env :: envs)
  = (l1 ++ EvSleep 1
        :: (loop round str urlencode interval weather_upload wu_station_id
              wu_station_key st1 envs).1,
     (loop round str urlencode interval weather_upload wu_station_id
        wu_station_key st1 envs).2).
Proof.
  intros Hs Hsample.
  rewrite loop_cons, (loop_body_on_mark _ _ _ _ _ _ Hs), Hsample.
  rewrite !bind_emitted. simpl.
  destruct (loop _ _ _ _ _ _ _ st1 envs) as [l2 r2]. simpl.
  by rewrite <- app_assoc.
Qed.

Lemma loop_cons_raises (interval : Z) (weather_upload : bool)
    (wu_station_id wu_station_key : string) (st : loop_state)
    (env : tick_env) (envs : list tick_env) (l1 : list event) (x : exn) :
  sampling_tick env = true ->
  sample round str urlencode interval weather_upload wu_station_id
    wu_station_key st env = (l1, Raise x) ->
  loop round str urlencode interval weather_upload wu_station_id
    wu_station_key st (env :: envs) = (l1, Raise x).
Proof.
  intros Hs Hsample.
  by rewrite loop_cons, (loop_body_on_mark _ _ _ _ _ _ Hs), Hsample.
Qed.

Lemma loop_cons_off_mark (interval : Z) (weather_upload : bool)
    (wu_station_id wu_station_key : string) (st : loop_state)
    (env : tick_env) (envs : list tick_env) :
  sampling_tick env = false ->
  loop round str urlencode interval weather_upload wu_station_id
    wu_station_key st (env :: envs)
  = (EvSleep 1
       :: (loop round str urlencode interval weather_upload wu_station_id
             wu_station_key st envs).1,
     (loop round str urlencode interval weather_upload wu_station_id
        wu_station_key st envs).2).
Proof.
  intros Hs.
  by rewrite loop_cons, (loop_body_off_mark _ _ _ _ _ _ Hs), bind_emitted.
Qed.

(** X7.  The passes off a 5-second mark only sleep: a run ends in the same
    state, or with the same exception, and with the same upload events,
    images and requests as the run of its sampling passes alone. *)
Theorem run_depends_on_sampling_passes
    (interval : Z) (weather_upload : bool)
    (wu_station_id wu_station_key : string) (envs : list tick_env)
    (st : loop_state) :
  let all := loop round str urlencode interval weather_upload
               wu_station_id wu_station_key st envs in
  let marks := loop round str urlencode interval weather_upload
                 wu_station_id wu_station_key st
                 (filter (fun env => sampling_tick env = true) envs) in
  all.2 = marks.2 /\
  upload_events all.1 = upload_events marks.1 /\
  renders all.1 = renders marks.1 /\
  requests all.1 = requests marks.1.
Proof.
  simpl. revert st. induction envs as [|env envs IH]; intros st; [done|].
  rewrite filter_cons. destruct (decide (sampling_tick env = true)) as [Hs|Hs].
  - rewrite !loop_cons.
    destruct (loop_body _ _ _ _ _ _ _ st env) as [l1 [st1|x]]; [|done].
    rewrite !bind_emitted. simpl.
    rewrite !upload_events_app, !renders_app, !requests_app.
    destruct (IH st1) as (-> & -> & -> & ->). done.
  - apply not_true_is_false in Hs.
    rewrite loop_cons, (loop_body_off_mark _ _ _ _ _ _ Hs), bind_emitted.
    simpl. apply IH.
Qed.

(** X8.  The filter is fed on every sampling pass, uploading or not: when
    a run returns, its smoothing attribute is the one that [get_temp],
    called on the sensor answers of the sampling passes in order, leaves
    from the attribute the run started with. *)
Theorem run_feeds_filter_on_sampling_passes
    (interval : Z) (weather_upload : bool)
    (wu_station_id wu_station_key : string) (envs : list tick_env)
    (st st' : loop_state) (l : list event) :
  loop round str urlencode interval weather_upload wu_station_id
    wu_station_key st envs = (l, Ok st') ->
  exists outs,
    get_temp_calls (smooth_t st)
      (sensors <$> filter (fun env => sampling_tick env = true) envs)
    = ([], Ok (smooth_t st', outs)).
Proof.
  revert st l. induction envs as [|env envs IH]; intros st l.
  - intros [= <- <-]. by exists [].
  - rewrite filter_cons.
    destruct (decide (sampling_tick env = true)) as [Hs|Hs].
    + destruct (sample round str urlencode interval weather_upload
                  wu_station_id wu_station_key st env)
        as [l1 [st1|x]] eqn:Hsample.
      * rewrite (loop_cons_on_mark _ _ _ _ _ _ _ _ _ Hs Hsample).
        destruct (loop _ _ _ _ _ _ _ st1 envs) as [l2 r2] eqn:Hloop.
        cbn [fst snd]. intros [= <- ->].
        destruct (sample_returned _ _ _ _ _ _ _ _ Hsample) as ([v Hget] & _).
        destruct (IH _ _ Hloop) as [outs Houts].
        exists (v :: outs).
        rewrite fmap_cons, get_temp_calls_cons, <- get_temp_smooths, Hget,
          bind_ok, Houts. done.
      * by rewrite (loop_cons_raises _ _ _ _ _ _ _ _ _ Hs Hsample).
    + apply not_true_is_false in Hs.
      rewrite (loop_cons_off_mark _ _ _ _ _ _ _ Hs).
      destruct (loop _ _ _ _ _ _ _ st envs) as [l2 r2] eqn:Hloop.
      cbn [fst snd]. intros [= <- ->]. by apply (IH _ _ Hloop).
Qed.

(** X9.  The cursor follows the sampling passes: when a run returns,
    [last_minute] is the minute the last sampling pass read, or the one it
    started with when no pass sampled. *)
Theorem run_cursor_is_last_sampled_minute
    (interval : Z) (weather_upload : bool)
    (wu_station_id wu_station_key : string) (envs : list tick_env)
    (st st' : loop_state) (l : list event) :
  loop round str urlencode interval weather_upload wu_station_id
    wu_station_key st envs = (l, Ok st') ->
  last_minute st'
  = default (last_minute st)
      (last (now_minute
               <$> filter (fun env => sampling_tick env = true) envs)).
Proof.
  revert st l. induction envs as [|env envs IH]; intros st l.
  - by intros [= <- <-].
  - rewrite filter_cons.
    destruct (decide (sampling_tick env = true)) as [Hs|Hs].
    + destruct (sample round str urlencode interval weather_upload
                  wu_station_id wu_station_key st env)
        as [l1 [st1|x]] eqn:Hsample.
      * rewrite (loop_cons_on_mark _ _ _ _ _ _ _ _ _ Hs Hsample).
        destruct (loop _ _ _ _ _ _ _ st1 envs) as [l2 r2] eqn:Hloop.
        cbn [fst snd]. intros [= <- ->].
        destruct (sample_returned _ _ _ _ _ _ _ _ Hsample) as (_ & Hcur).
        rewrite (IH _ _ Hloop), Hcur, fmap_cons.
        generalize (now_minute <$> filter (fun env => sampling_tick env = true)
                                     envs).
        intros [|m ms]; [done|].
        change (last (now_minute env :: m :: ms)) with (last (m :: ms)).
        destruct (last (m :: ms)) eqn:Hlast; [done|].
        by apply last_None in Hlast.
      * by rewrite (loop_cons_raises _ _ _ _ _ _ _ _ _ Hs Hsample).
    + apply not_true_is_false in Hs.
      rewrite (loop_cons_off_mark _ _ _ _ _ _ _ Hs).
      destruct (loop _ _ _ _ _ _ _ st envs) as [l2 r2] eqn:Hloop.
      cbn [fst snd]. intros [= <- ->]. by apply (IH _ _ Hloop).
Qed.

(** ** More of the code: the interval *)

Lemma due_divides (interval m : Z) :
  interval <> 0%Z -> due interval m = true <-> (interval | m)%Z.
Proof.
  intros Hi. unfold due.
  rewrite orb_true_iff, !Z.eqb_eq, (Z.mod_divide m interval Hi).
  split; [|by right]. intros [-> | H]; [apply Z.divide_0_r | done].
Qed.

Lemma due_opp (interval m : Z) : due (- interval) m = due interval m.
Proof.
  destruct (Z.eq_dec interval 0%Z) as [-> | Hi]; [done|].
  apply eq_true_iff_eq.
  rewrite !due_divides by lia. apply Z.divide_opp_l.
Qed.

Lemma sample_events (interval : Z) (weather_upload : bool)
    (wu_station_id wu_station_key : string) (st : loop_state)
    (env : tick_env) :
  store_ok (smooth_t st) ->
  interval <> 0%Z ->
  upload_events
    (sample round str urlencode interval weather_upload wu_station_id
       wu_station_key st env).1
  = (if fires interval st env then 1 else 0)%nat.
Proof.
  intros Hok Hi.
  destruct (sample_spec round str urlencode interval wu_station_id
              wu_station_key weather_upload st env Hok Hi)
    as (t & calc_temp & _ & _ & Hs).
  simpl in Hs. rewrite Hs. simpl.
  destruct (minute_mark_counts str urlencode interval wu_station_id
              wu_station_key weather_upload (last_temp st)
              (round (c_to_f calc_temp) 1) (round (get_humidity env) 0)
              (round (get_pressure env * 0.0295300)%float 1)
              (now_minute env) (urlopen env)) as (He & _).
  simpl in He. by destruct (fires interval st env); [rewrite He|].
Qed.

(** X10.  Under any non-zero interval, a sampling pass from a good state
    is an upload event exactly when it reads a minute other than the
    cursor's and the interval divides that minute; minute 0 is divided by
    every interval. *)
Theorem upload_event_iff_interval_divides
    (interval : Z) (weather_upload : bool)
    (wu_station_id wu_station_key : string) (st : loop_state)
    (env : tick_env) :
  store_ok (smooth_t st) ->
  interval <> 0%Z ->
  upload_events
    (sample round str urlencode interval weather_upload wu_station_id
       wu_station_key st env).1 = 1%nat
  <-> now_minute env <> last_minute st /\ (interval | now_minute env)%Z.
Proof.
  intros Hok Hi. rewrite (sample_events _ _ _ _ _ _ Hok Hi).
  unfold fires. rewrite <- (due_divides _ _ Hi).
  destruct (Z.eqb_spec (now_minute env) (last_minute st)) as [Heq|Hne];
    simpl.
  - split; [discriminate|]. by intros [? _].
  - destruct (due interval (now_minute env)); split; try done.
    by intros [_ ?].
Qed.

(** X11.  With an interval of 0, which the start-up check lets through, a
    sampling pass that reads a new minute other than 0 raises
    [ZeroDivisionError]: the run stops there with exit code 1, before the
    pass sleeps and without an upload event.  On minute 0 the modulo is
    not evaluated and the pass is an upload event. *)
Theorem zero_interval_raises_off_the_hour
    (weather_upload : bool) (wu_station_id wu_station_key : string)
    (st : loop_state) (env : tick_env) (envs : list tick_env) :
  store_ok (smooth_t st) ->
  sampling_tick env = true ->
  now_minute env <> last_minute st ->
  let run := loop round str urlencode 0 weather_upload wu_station_id
               wu_station_key st (env :: envs) in
  let pass := sample round str urlencode 0 weather_upload wu_station_id
                wu_station_key st env in
  (now_minute env <> 0%Z ->
   run.2 = Raise ZeroDivisionError /\
   exit_code run.2 = Some 1%Z /\
   passes run.1 = 0%nat /\
   upload_events run.1 = 0%nat) /\
  (now_minute env = 0%Z ->
   upload_events pass.1 = 1%nat /\ exists st1, pass.2 = Ok st1).
Proof.
  intros Hok Hs Hne. cbv zeta.
  destruct (get_temp_ok (smooth_t st) (sensors env) Hok)
    as (t & calc_temp & Hget & _).
  split.
  - intros Hm.
    assert (exists l1,
      sample round str urlencode 0 weather_upload wu_station_id
        wu_station_key st env = (l1, Raise ZeroDivisionError) /\
      passes l1 = 0%nat /\ upload_events l1 = 0%nat) as (l1 & Hsample & ?).
    { unfold sample, py_mod. rewrite Hget, bind_ok.
      destruct (Z.eqb_spec (now_minute env) (last_minute st)); [done|].
      destruct (Z.eqb_spec (now_minute env) 0); [done|].
      simpl. by eexists. }
    by rewrite (loop_cons_raises _ _ _ _ _ _ _ _ _ Hs Hsample).
  - intros Hm. unfold sample, py_mod. rewrite Hget, bind_ok.
    destruct (Z.eqb_spec (now_minute env) (last_minute st)); [done|].
    destruct (Z.eqb_spec (now_minute env) 0); [|done].
    simpl. rewrite minute_mark_trace. simpl. rewrite app_nil_r.
    split; [|by eexists].
    destruct (show_direction_trace (last_temp st)
                (round (c_to_f calc_temp) 1)) as (img & -> & _).
    destruct (upload_silent urlencode
      (build_weather_data str wu_station_id wu_station_key
         (round (c_to_f calc_temp) 1) (round (get_humidity env) 0)
         (round (get_pressure env * 0.0295300)%float 1)) (urlopen env))
      as (Hu & _).
    destruct weather_upload; simpl; by rewrite ?Hu.
Qed.

Lemma mod_opp_eqb (interval m : Z) :
  interval <> 0%Z ->
  (m mod - interval =? 0)%Z = (m mod interval =? 0)%Z.
Proof.
  intros Hi. apply eq_true_iff_eq.
  rewrite !Z.eqb_eq, !Z.mod_divide by lia. apply Z.divide_opp_l.
Qed.

Lemma sample_opp (interval : Z) (weather_upload : bool)
    (wu_station_id wu_station_key : string) (st : loop_state)
    (env : tick_env) :
  let a := sample round str urlencode (- interval) weather_upload
             wu_station_id wu_station_key st env in
  let b := sample round str urlencode interval weather_upload
             wu_station_id wu_station_key st env in
  a.2 = b.2 /\
  upload_events a.1 = upload_events b.1 /\
  renders a.1 = renders b.1 /\
  requests a.1 = requests b.1.
Proof.
  cbv zeta. unfold sample, py_mod.
  destruct (get_temp (smooth_t st) (sensors env)) as [l0 [[t calc_temp]|x]];
    [|done].
  rewrite !bind_emitted. cbn [fst snd].
  rewrite !upload_events_app, !renders_app, !requests_app.
  destruct (now_minute env =? last_minute st)%Z; simpl; [done|].
  destruct (now_minute env =? 0)%Z; simpl.
  { rewrite !minute_mark_trace. simpl. done. }
  destruct (Z.eqb_spec interval 0) as [-> | Hi]; [done|].
  destruct (Z.eqb_spec (- interval) 0) as [|_]; [lia|].
  simpl. rewrite (mod_opp_eqb _ _ Hi).
  destruct (now_minute env mod interval =? 0)%Z; simpl; [|done].
  rewrite !minute_mark_trace. simpl. done.
Qed.

(** X12.  A negative interval, which the start-up check lets through,
    schedules like its absolute value: the run under [- interval] ends in
    the same state, or with the same exception, and has the same upload
    events, images and requests as the run under [interval]. *)
Theorem negative_interval_schedules_like_positive
    (interval : Z) (weather_upload : bool)
    (wu_station_id wu_station_key : string) (envs : list tick_env)
    (st : loop_state) :
  let a := loop round str urlencode (- interval) weather_upload
             wu_station_id wu_station_key st envs in
  let b := loop round str urlencode interval weather_upload
             wu_station_id wu_station_key st envs in
  a.2 = b.2 /\
  upload_events a.1 = upload_events b.1 /\
  renders a.1 = renders b.1 /\
  requests a.1 = requests b.1.
Proof.
  cbv zeta. revert st. induction envs as [|env envs IH]; intros st; [done|].
  destruct (sampling_tick env) eqn:Hs.
  - destruct (sample_opp interval weather_upload wu_station_id
                wu_station_key st env) as (H2 & He & Hr & Hq).
    destruct (sample round str urlencode (- interval) weather_upload
                wu_station_id wu_station_key st env)
      as [l1 [st1|x]] eqn:Ha;
    destruct (sample round str urlencode interval weather_upload
                wu_station_id wu_station_key st env)
      as [l1' r1'] eqn:Hb; cbn [fst snd] in H2, He, Hr, Hq; subst r1'.
    + rewrite (loop_cons_on_mark _ _ _ _ _ _ _ _ _ Hs Ha),
        (loop_cons_on_mark _ _ _ _ _ _ _ _ _ Hs Hb).
      destruct (IH st1) as (-> & IHe & IHr & IHq). cbn [fst snd].
      rewrite !upload_events_app, !renders_app, !requests_app. simpl.
      by rewrite He, Hr, Hq, IHe, IHr, IHq.
    + by rewrite (loop_cons_raises _ _ _ _ _ _ _ _ _ Hs Ha),
        (loop_cons_raises _ _ _ _ _ _ _ _ _ Hs Hb).
  - rewrite !(loop_cons_off_mark _ _ _ _ _ _ _ Hs). simpl. apply IH.
Qed.

(** ** More of the code: the start of the loop *)

Lemma loop_init_fresh (first : reading) (minute : Z) :
  let c := compensated first in
  let last_temp := round (c_to_f (mean3 c c c)) 1 in
  loop_init round None first minute
  = ([EvLog INFO (MsgInitialTemp last_temp);
      EvLog DEBUG (MsgLastMinute (init_last_minute minute))],
     Ok {| smooth_t := Some [c; c; c]; last_temp := last_temp;
           last_minute := init_last_minute minute |}).
Proof.
  cbv zeta. unfold loop_init.
  by rewrite get_temp_smooths, get_smooth_first, bind_ok.
Qed.

(** X13.  Whatever minute the loop starts in, minutes 0 and 1 included, a
    first pass that samples in that same minute gets past the cursor: it
    is an upload event exactly when the interval divides the minute. *)
Theorem first_pass_of_start_minute_is_checked
    (interval : Z) (weather_upload : bool)
    (wu_station_id wu_station_key : string) (first : reading) (minute : Z)
    (env : tick_env) :
  interval <> 0%Z ->
  sampling_tick env = true ->
  now_minute env = minute ->
  upload_events
    (processing_loop round str urlencode interval weather_upload
       wu_station_id wu_station_key None first minute [env]).1 = 1%nat
  <-> (interval | minute)%Z.
Proof.
  intros Hi Hs Hm. unfold processing_loop.
  rewrite loop_init_fresh, bind_emitted. cbn [fst snd].
  rewrite upload_events_app. simpl upload_events at 1.
  match goal with |- context [loop _ _ _ _ _ _ _ ?s _] => set (st0 := s) end.
  destruct (loop_body_spec round str urlencode interval wu_station_id
              wu_station_key weather_upload st0 env eq_refl Hi)
    as (l & st' & Hbody & _ & _ & Hcase).
  rewrite Hs in Hcase. destruct Hcase as (_ & _ & Hev).
  rewrite loop_cons, Hbody, bind_emitted. simpl.
  rewrite app_nil_r, upload_events_app, Hev. simpl.
  unfold fires. subst st0. simpl.
  rewrite Hm, Z.eqb_sym, init_last_minute_behind.
  simpl. rewrite <- (due_divides _ _ Hi).
  destruct (due interval minute); split; (done || lia).
Qed.



(** ** More of the code: the request *)

(** X15.  The response is closed only on the path where everything before
    it worked: [close] is called exactly when the dictionary was encoded,
    the URL opened and the body read.  A request that fails on reading
    leaves its response open. *)
Theorem response_closed_only_after_read
    (weather_data : gmap string string) (net : string -> result response) :
  EvClose ∈ (upload urlencode weather_data net).1
  <-> exists query r html,
        urlencode weather_data = Ok query /\
        net (WU_URL +:+ "?" +:+ query) = Ok r /\
        read r = Ok html.
Proof.
  unfold upload, send, try_except, bind, call, emit, logging_info,
    logging_error.
  destruct (urlencode weather_data) as [query|x] eqn:Hq; simpl.
  - destruct (net _) as [[rd cl]|x] eqn:Hn; simpl.
    + destruct rd as [html|x]; simpl.
      * split.
        -- intros _. by exists query, {| read := Ok html; close := cl |}, html.
        -- intros _. destruct cl as [[]|y]; simpl; rewrite !elem_of_cons; auto.
      * split.
        -- rewrite !elem_of_cons, elem_of_nil. intuition discriminate.
        -- intros (q' & r & html & [= <-] & Hn' & Hr).
           rewrite Hn in Hn'. injection Hn' as <-. discriminate.
    + split.
      * rewrite !elem_of_cons, elem_of_nil. intuition discriminate.
      * intros (q' & r & html & [= <-] & Hn' & _). congruence.
  - split.
    + rewrite !elem_of_cons, elem_of_nil. intuition discriminate.
    + by intros (q' & r & html & [=] & _).
Qed.

End Coverage.

(** ** More of the code: the smoothing buffer *)

(** X16.  [get_smooth] indexes slots 0, 1 and 2 of whatever list the
    attribute holds: a list shorter than three raises [IndexError]; a list
    of three or more gets the new value in front of its first two and
    keeps what lies beyond slot 2. *)
Theorem get_smooth_needs_three_slots (l : list float) (x : float) :
  ((length l < 3)%nat -> get_smooth (Some l) x = ([], Raise IndexError)) /\
  (forall (a b c : float) (rest : list float),
      l = a :: b :: c :: rest ->
      get_smooth (Some l) x
      = ([], Ok (Some (x :: a :: b :: rest), mean3 x a b))).
Proof.
  split.
  - intros Hlen. destruct l as [|a [|b [|c rest]]]; try reflexivity.
    simpl in Hlen. lia.
  - intros a b c rest ->. reflexivity.
Qed.

Lemma get_temp_calls_app (inputs more : list reading) (t : smooth_store) :
  store_ok t ->
  exists t1 outs,
    get_temp_calls t inputs = ([], Ok (t1, outs)) /\
    store_ok t1 /\
    get_temp_calls t (inputs ++ more)
    = (let! (t2, outs2) := get_temp_calls t1 more in
       ret (t2, outs ++ outs2)).
Proof.
  revert t. induction inputs as [|s inputs IH]; intros t Hok.
  - exists t, []. split; [done|]. split; [done|]. simpl.
    destruct (get_temp_calls t more) as [l [[t2 outs2]|x]]; simpl;
      by rewrite ?app_nil_r.
  - destruct (get_smooth_ok t (compensated s) Hok) as (t' & v & Hv & Hok').
    destruct (IH t' Hok') as (t1 & outs & Hcalls & Hok1 & Happ).
    exists t1, (v :: outs).
    rewrite <- app_comm_cons, !get_temp_calls_cons, Hv, !bind_ok, Hcalls,
      Happ.
    split; [done|]. split; [done|].
    destruct (get_temp_calls t1 more) as [l [[t2 outs2]|x]]; simpl;
      by rewrite ?app_nil_r.
Qed.

(** X17.  The filter forgets: from any good state and after any earlier
    calls, three more calls of [get_temp] leave exactly the three
    compensated values of those calls in the buffer, newest first, and
    return their mean last. *)
Theorem filter_forgets_after_three_calls
    (t : smooth_store) (inputs : list reading) (s1 s2 s3 : reading) :
  store_ok t ->
  exists outs,
    get_temp_calls t (inputs ++ [s1; s2; s3])
    = ([], Ok (Some [compensated s3; compensated s2; compensated s1],
               outs)) /\
    last outs
    = Some (mean3 (compensated s3) (compensated s2) (compensated s1)).
Proof.
  intros Hok.
  destruct (get_temp_calls_app inputs [s1; s2; s3] t Hok)
    as (t1 & outs & _ & Hok1 & ->).
  destruct (store_ok_inv t1 Hok1) as [-> | (a & b & c & ->)].
  - eexists. split; [reflexivity|]. by rewrite last_app.
  - eexists. split; [reflexivity|]. by rewrite last_app.
Qed.

(** ** More of the code: the reads of [get_temp] *)


(** ** Closed examples for the properties above *)

(** A configuration without a station key. *)
Lemma main_stops_on_missing_credentials_example :
  (10 <= 60)%Z /\
  exit_code
    (main Py.round Py.str Py.urlencode (Some 10%Z) true Cases.no_key
       Scenario.working (Scenario.steady 20) 9 []).2 = Some 1%Z.
Proof.
  assert (10 <= 60)%Z as Hi by lia. split; [exact Hi|].
  rewrite (main_stops_on_missing_credentials Py.round Py.str Py.urlencode
             10 true Cases.no_key Scenario.working (Scenario.steady 20) 9
             [] Hi (or_intror eq_refl)).
  reflexivity.
Defined.

(** A keyboard interrupt during [show_message] ends with exit code 1. *)
Lemma main_stops_on_sense_hat_failure_example :
  init_failure Cases.interrupted = Some KeyboardInterrupt /\
  exit_code
    (main Py.round Py.str Py.urlencode (Some 10%Z) true Scenario.station
       Cases.interrupted (Scenario.steady 20) 9 []).2 = Some 1%Z.
Proof.
  assert (10 <= 60)%Z as Hi by lia.
  split; [reflexivity|].
  destruct (main_stops_on_sense_hat_failure Py.round Py.str Py.urlencode
              10 true Scenario.station Cases.interrupted
              (Scenario.steady 20) 9 [] "KXX0000" "secret"
              KeyboardInterrupt Hi eq_refl eq_refl eq_refl)
    as (l & -> & _).
  reflexivity.
Defined.

(** A good start: the process is in its loop. *)
Lemma main_enters_processing_loop_example :
  init_failure Scenario.working = None /\
  exit_code
    (main Py.round Py.str Py.urlencode (Some 10%Z) true Scenario.station
       Scenario.working (Scenario.steady 20) 9
       (Scenario.minute_ten Scenario.online)).2 = None.
Proof.
  assert (10 <= 60)%Z as Hi by lia.
  split; [reflexivity|].
  rewrite (main_enters_processing_loop Py.round Py.str Py.urlencode 10 true
             Scenario.station Scenario.working (Scenario.steady 20) 9
             (Scenario.minute_ten Scenario.online) "KXX0000" "secret" Hi
             eq_refl eq_refl eq_refl).
  vm_compute. reflexivity.
Defined.

(** The four passes of minute 10 feed the filter twice. *)
Lemma run_feeds_filter_on_sampling_passes_example :
  exists l outs,
    loop Py.round Py.str Py.urlencode 10 true "KXX0000" "secret"
      Scenario.started (Scenario.minute_ten Scenario.online)
    = (l, Ok Cases.after_minute_ten) /\
    get_temp_calls (Some [20; 20; 20]%float)
      [Scenario.steady 25; Scenario.steady 25]
    = ([], Ok (Some [25; 25; 20]%float, outs)).
Proof.
  assert (loop Py.round Py.str Py.urlencode 10 true "KXX0000" "secret"
            Scenario.started (Scenario.minute_ten Scenario.online)
          = ((loop Py.round Py.str Py.urlencode 10 true "KXX0000" "secret"
                Scenario.started (Scenario.minute_ten Scenario.online)).1,
             Ok Cases.after_minute_ten)) as Hrun
    by (vm_compute; reflexivity).
  destruct (run_feeds_filter_on_sampling_passes Py.round Py.str
              Py.urlencode 10 true "KXX0000" "secret"
              (Scenario.minute_ten Scenario.online) Scenario.started
              Cases.after_minute_ten _ Hrun) as [outs Houts].
  eexists _, outs. split; [exact Hrun | exact Houts].
Defined.

(** After the four passes of minute 10 the cursor is on minute 10. *)
Lemma run_cursor_is_last_sampled_minute_example :
  exists l,
    loop Py.round Py.str Py.urlencode 10 true "KXX0000" "secret"
      Scenario.started (Scenario.minute_ten Scenario.online)
    = (l, Ok Cases.after_minute_ten) /\
    default (last_minute Scenario.started)
      (last (now_minute
               <$> filter (fun env => sampling_tick env = true)
                     (Scenario.minute_ten Scenario.online))) = 10%Z.
Proof.
  assert (loop Py.round Py.str Py.urlencode 10 true "KXX0000" "secret"
            Scenario.started (Scenario.minute_ten Scenario.online)
          = ((loop Py.round Py.str Py.urlencode 10 true "KXX0000" "secret"
                Scenario.started (Scenario.minute_ten Scenario.online)).1,
             Ok Cases.after_minute_ten)) as Hrun
    by (vm_compute; reflexivity).
  eexists. split; [exact Hrun|].
  rewrite <- (run_cursor_is_last_sampled_minute Py.round Py.str
                Py.urlencode 10 true "KXX0000" "secret"
                (Scenario.minute_ten Scenario.online) Scenario.started
                Cases.after_minute_ten _ Hrun).
  reflexivity.
Defined.

(** An interval of 15 and a pass in minute 45, cursor on minute 9. *)
Lemma upload_event_iff_interval_divides_example :
  (store_ok (smooth_t Scenario.started) /\ 15%Z <> 0%Z) /\
  upload_events
    (sample Py.round Py.str Py.urlencode 15 true "KXX0000" "secret"
       Scenario.started (Scenario.pass 45 0 25 Scenario.online)).1 = 1%nat.
Proof.
  assert (store_ok (smooth_t Scenario.started)) as Hok by reflexivity.
  assert (15%Z <> 0%Z) as Hi by lia.
  split; [done|].
  apply (upload_event_iff_interval_divides Py.round Py.str Py.urlencode 15
           true "KXX0000" "secret" Scenario.started
           (Scenario.pass 45 0 25 Scenario.online) Hok Hi).
  split; [simpl; lia|]. by exists 3%Z.
Defined.

(** An interval of 0 and a pass in minute 10. *)
Lemma zero_interval_raises_off_the_hour_example :
  (store_ok (smooth_t Scenario.started) /\
   sampling_tick (Scenario.pass 10 0 25 Scenario.online) = true /\
   now_minute (Scenario.pass 10 0 25 Scenario.online)
   <> last_minute Scenario.started) /\
  (loop Py.round Py.str Py.urlencode 0 true "KXX0000" "secret"
     Scenario.started (Scenario.minute_ten Scenario.online)).2
  = Raise ZeroDivisionError.
Proof.
  assert (store_ok (smooth_t Scenario.started)) as Hok by reflexivity.
  assert (sampling_tick (Scenario.pass 10 0 25 Scenario.online) = true)
    as Hs by reflexivity.
  assert (now_minute (Scenario.pass 10 0 25 Scenario.online)
          <> last_minute Scenario.started) as Hne by (simpl; lia).
  split; [done|].
  destruct (zero_interval_raises_off_the_hour Py.round Py.str Py.urlencode
              true "KXX0000" "secret" Scenario.started
              (Scenario.pass 10 0 25 Scenario.online)
              (tail (Scenario.minute_ten Scenario.online)) Hok Hs Hne)
    as [Hraise _].
  apply Hraise. simpl. lia.
Defined.

(** A start in minute 0, where the cursor starts on -1. *)
Lemma first_pass_of_start_minute_is_checked_example :
  (10%Z <> 0%Z /\
   sampling_tick (Scenario.pass 0 5 20 Scenario.online) = true) /\
  upload_events
    (processing_loop Py.round Py.str Py.urlencode 10 true "KXX0000" "secret"
       None (Scenario.steady 20) 0 [Scenario.pass 0 5 20 Scenario.online]).1
  = 1%nat.
Proof.
  assert (10%Z <> 0%Z) as Hi by lia.
  assert (sampling_tick (Scenario.pass 0 5 20 Scenario.online) = true)
    as Hs by reflexivity.
  split; [done|].
  apply (first_pass_of_start_minute_is_checked Py.round Py.str Py.urlencode
           10 true "KXX0000" "secret" (Scenario.steady 20) 0
           (Scenario.pass 0 5 20 Scenario.online) Hi Hs eq_refl).
  apply Z.divide_0_r.
Defined.


(** Three calls after a first one at 30 degrees. *)
Lemma filter_forgets_after_three_calls_example :
  store_ok None /\
  exists outs,
    get_temp_calls None
      [Scenario.steady 30; Scenario.steady 20; Scenario.steady 21;
       Scenario.steady 22]
    = ([], Ok (Some [22; 21; 20]%float, outs)).
Proof.
  split; [exact I|].
  destruct (filter_forgets_after_three_calls None [Scenario.steady 30]
              (Scenario.steady 20) (Scenario.steady 21) (Scenario.steady 22)
              I) as (outs & Hcalls & _).
  by exists outs.
Defined.

